(** * The data-lake ETL of [etl.py], embedded in Rocq

    [etl.py] reads two JSON data sets with Spark, derives the five tables of
    a star schema (songs, artists, users, time, songplays) and writes them
    as parquet.  This file embeds the table derivations and the two
    [process_*] functions, statement by statement, and settles the claims
    of the specification on that embedding.

    Spark and the Python standard library are not part of the repository;
    the operations the program calls are modelled after their documented
    behaviour, each one next to the place where the program uses it. *)

From Stdlib Require Import ZArith List String Ascii Bool Lia Sorted DecimalString.
From stdpp Require Import base decidable option list sorting gmap strings.
Import ListNotations.

Local Open Scope string_scope.
Local Open Scope Z_scope.

(** ** Cells, rows and frames *)

(** A cell of a Spark row.  A double is carried as its IEEE-754 bit pattern:
    the program moves doubles around and never computes on one. *)
Inductive value : Type :=
| VNull
| VBool (b : bool)
| VInt (n : Z)
| VDbl (bits : Z)
| VStr (s : string).

#[global] Instance value_eq_dec : EqDecision value.
Proof. solve_decision. Defined.

(** A row maps column names to cells, as a JSON object does; a name that
    the object does not carry reads as null. *)
Abbreviation Row := (gmap string value).

Definition cell (c : string) (r : Row) : value := default VNull (r !! c).

(** A frame has a schema and its rows, split into partitions.  The order of
    the rows inside a partition and the order of the partitions is the scan
    order. *)
Record DataFrame : Type := mkFrame {
  columns : list string;
  partitions : list (list Row)
}.

Definition rows (df : DataFrame) : list Row := concat (partitions df).

(** ** Exceptions and results *)

Inductive exn : Type :=
| AnalysisException (what : string)
| AttributeError (attr : string)
| NameError (name : string)
| TypeError (what : string)
| ValueError (what : string).

Inductive result (A : Type) : Type :=
| Ok (a : A)
| Raise (e : exn).
Arguments Ok {A} a.
Arguments Raise {A} e.

#[global] Instance result_ret : MRet result := fun A a => Ok a.

#[global] Instance result_bind : MBind result := fun A B k m =>
  match m with
  | Ok a => k a
  | Raise e => Raise e
  end.

Fixpoint mapR {A B} (f : A -> result B) (l : list A) : result (list B) :=
  match l with
  | [] => Ok []
  | a :: l' => b ← f a; bs ← mapR f l'; Ok (b :: bs)
  end.

(** ** The frame operations the program calls *)

Definition has_column (c : string) (df : DataFrame) : bool :=
  bool_decide (c ∈ columns df).

(** [df.name]: [DataFrame.__getattr__] raises [AttributeError] for a name
    that is not a column of the frame, and returns the column otherwise. *)
Definition getattr (df : DataFrame) (name : string) : result string :=
  if has_column name df then Ok name else Raise (AttributeError name).

(** [df.filter(df.page == 'NextSong')], partition by partition.  A null or
    non-string cell does not satisfy the comparison. *)
Definition is_next_song (r : Row) : bool :=
  bool_decide (cell "page" r = VStr "NextSong").

Definition filter_next_song (df : DataFrame) : result DataFrame :=
  getattr df "page";;
  Ok (mkFrame (columns df) (map (List.filter is_next_song) (partitions df))).

(** The expressions that occur in the program's [select] calls: a column,
    or one of the date functions applied to a column. *)
Inductive fn : Type := FCol | FHour | FDayOfMonth | FWeekOfYear | FMonth | FYear.

Record expr : Type := mkExpr { e_fn : fn; e_col : string; e_alias : string }.

Section Frames.

(** What a date function yields on a cell; defined with the calendar
    below. *)
Variable date_fn : fn -> value -> value.

Definition eval (e : expr) (r : Row) : value := date_fn (e_fn e) (cell (e_col e) r).

Definition project (es : list expr) (r : Row) : Row :=
  list_to_map (map (fun e => (e_alias e, eval e r)) es).

(** [df.select(...)]: every column an expression names must be in the
    schema, otherwise the analysis fails on the first one that is not.
    Names are compared as they are written, where Spark's default resolver
    also takes a name that differs in case only: what is stated below about
    a missing column is stated for frames that lack the name in every
    spelling. *)
Definition select (es : list expr) (df : DataFrame) : result DataFrame :=
  match List.find (fun e => negb (has_column (e_col e) df)) es with
  | Some e => Raise (AnalysisException (e_col e))
  | None => Ok (mkFrame (map e_alias es) (map (map (project es)) (partitions df)))
  end.

End Frames.

(** The key of a row for a list of columns. *)
Definition key_of (cs : list string) (r : Row) : list value := map (fun c => cell c r) cs.

(** Rows whose key was not seen before, in scan order. *)
Fixpoint first_by_key (cs : list string) (seen : list (list value)) (l : list Row) : list Row :=
  match l with
  | [] => []
  | r :: l' =>
      if bool_decide (key_of cs r ∈ seen) then first_by_key cs seen l'
      else r :: first_by_key cs (key_of cs r :: seen) l'
  end.

(** [df.dropDuplicates(subset)]: one row per distinct key.  Spark leaves
    open which of the rows of a key survives and in what order the result
    comes; here it is the first one in scan order, and the result of the
    shuffle is gathered in one partition.  Keys are compared cell by cell
    as they are stored, so a negative zero and each NaN are keys of their
    own, where Spark's grouping takes a negative zero for zero and all NaNs
    for one value. *)
Definition dropDuplicates (cs : list string) (df : DataFrame) : result DataFrame :=
  match List.find (fun c => negb (has_column c df)) cs with
  | Some c => Raise (AnalysisException c)
  | None => Ok (mkFrame (columns df) [first_by_key cs [] (rows df)])
  end.

(** [df.drop_duplicates()] without a subset compares whole rows, that is
    all the columns of the schema. *)
Definition drop_duplicates (df : DataFrame) : result DataFrame :=
  dropDuplicates (columns df) df.

(** Spark's ascending order on cells: nulls first, then by value. *)
Definition dbl_rank (bits : Z) : Z :=
  if bits <? 2 ^ 63 then bits else 2 ^ 63 - bits.

Definition value_leb (a b : value) : bool :=
  match a, b with
  | VNull, _ => true
  | _, VNull => false
  | VBool x, VBool y => implb x y
  | VBool _, _ => true
  | _, VBool _ => false
  | VInt x, VInt y => x <=? y
  | VInt _, _ => true
  | _, VInt _ => false
  | VDbl x, VDbl y => dbl_rank x <=? dbl_rank y
  | VDbl _, _ => true
  | _, VDbl _ => false
  | VStr x, VStr y => String.leb x y
  end.

Fixpoint insert_sorted (c : string) (r : Row) (l : list Row) : list Row :=
  match l with
  | [] => [r]
  | x :: l' =>
      if value_leb (cell c r) (cell c x) then r :: l
      else x :: insert_sorted c r l'
  end.

Definition sort_by (c : string) (l : list Row) : list Row :=
  fold_right (insert_sorted c) [] l.

(** [df.orderBy(c)]: a global ascending sort, gathered in one partition. *)
Definition orderBy (c : string) (df : DataFrame) : result DataFrame :=
  if has_column c df then Ok (mkFrame (columns df) [sort_by c (rows df)])
  else Raise (AnalysisException c).

(** [df.withColumn(name, udf(df.src))]: the column [src] is looked up as an
    attribute of the frame, the function is applied to its cell in every
    row, and the result replaces or extends the column [name].  The
    function is applied here when the column is added; Spark applies it
    when the rows are computed, so an exception of the function belongs to
    the computation of the rows and not to this statement. *)
Definition add_column (name : string) (cs : list string) : list string :=
  if bool_decide (name ∈ cs) then cs else cs ++ [name].

Definition withColumn_udf (name : string) (udf : value -> result value) (src : string)
    (df : DataFrame) : result DataFrame :=
  getattr df src;;
  ps ← mapR (mapR (fun r => v ← udf (cell src r); Ok (<[name := v]> r))) (partitions df);
  Ok (mkFrame (add_column name (columns df)) ps).

(** [monotonically_increasing_id()]: the partition index in the upper bits
    and the position of the row inside its partition in the lower 33 bits,
    as a signed 64-bit integer. *)
Definition wrap64 (z : Z) : Z := (z + 2 ^ 63) mod 2 ^ 64 - 2 ^ 63.

Definition monotonic_id (p i : nat) : Z :=
  wrap64 (Z.shiftl (Z.of_nat p) 33 + Z.of_nat i).

Definition withColumn_id (name : string) (df : DataFrame) : DataFrame :=
  mkFrame (add_column name (columns df))
    (imap (fun p part => imap (fun i r => <[name := VInt (monotonic_id p i)]> r) part)
       (partitions df)).

(** ** The calendar *)

(** The proleptic Gregorian calendar, which both Python's [datetime] and
    Spark's date functions use.  Days are counted from 1970-01-01. *)
Definition is_leap (y : Z) : bool :=
  ((y mod 4 =? 0) && negb (y mod 100 =? 0)) || (y mod 400 =? 0).

Definition days_in_month (y m : Z) : Z :=
  if m =? 2 then (if is_leap y then 29 else 28)
  else if (m =? 4) || (m =? 6) || (m =? 9) || (m =? 11) then 30
  else 31.

Definition civil_from_days (n : Z) : Z * Z * Z :=
  let z := n + 719468 in
  let era := z / 146097 in
  let doe := z mod 146097 in
  let yoe := (doe - doe / 1460 + doe / 36524 - doe / 146096) / 365 in
  let doy := doe - (365 * yoe + yoe / 4 - yoe / 100) in
  let mp := (5 * doy + 2) / 153 in
  let d := doy - (153 * mp + 2) / 5 + 1 in
  let m := if mp <? 10 then mp + 3 else mp - 9 in
  (yoe + era * 400 + (if m <=? 2 then 1 else 0), m, d).

Definition days_from_civil (y m d : Z) : Z :=
  let y' := if m <=? 2 then y - 1 else y in
  let era := y' / 400 in
  let yoe := y' mod 400 in
  let mp := if 2 <? m then m - 3 else m + 9 in
  let doy := (153 * mp + 2) / 5 + d - 1 in
  era * 146097 + (yoe * 365 + yoe / 4 - yoe / 100 + doy) - 719468.

(** The ISO-8601 week of a date: the week of the Thursday of the date's
    week, counted inside that Thursday's year.  Day 0 was a Thursday. *)
Definition thursday_of (n : Z) : Z := n - (n + 3) mod 7 + 3.

Definition week_of_days (n : Z) : Z :=
  let th := thursday_of n in
  let '(y, _, _) := civil_from_days th in
  (th - days_from_civil y 1 1) / 7 + 1.

Definition iso_week (y m d : Z) : Z := week_of_days (days_from_civil y m d).

(** ** Python's [datetime] *)

Record datetime : Type := mkDatetime {
  dt_year : Z; dt_month : Z; dt_day : Z;
  dt_hour : Z; dt_minute : Z; dt_second : Z; dt_microsecond : Z
}.

Definition digit_char (d : Z) : ascii := ascii_of_nat (48 + Z.to_nat d).

Definition pad2 (n : Z) : string :=
  String (digit_char (n / 10)) (String (digit_char (n mod 10)) "").

Definition pad4 (n : Z) : string :=
  String (digit_char (n / 1000)) (String (digit_char (n / 100 mod 10)) (pad2 (n mod 100))).

Definition pad6 (n : Z) : string :=
  String (digit_char (n / 100000)) (String (digit_char (n / 10000 mod 10)) (pad4 (n mod 10000))).

(** [str(dt)]: ISO layout with a space; the microseconds are printed only
    when they are not zero. *)
Definition str_datetime (t : datetime) : string :=
  pad4 (dt_year t) ++ "-" ++ pad2 (dt_month t) ++ "-" ++ pad2 (dt_day t) ++ " "
  ++ pad2 (dt_hour t) ++ ":" ++ pad2 (dt_minute t) ++ ":" ++ pad2 (dt_second t)
  ++ (if dt_microsecond t =? 0 then "" else "." ++ pad6 (dt_microsecond t)).

(** [str(n)] for a Python int. *)
Definition str_int (n : Z) : string := NilZero.string_of_int (Z.to_int n).

(** [int(x)] on the cell the worker hands to the function.  The reader gives
    [ts] as a long, or null where a record has none; [int(None)] is a
    [TypeError].  A string or a double is outside the schema of [ts] and is
    refused here as well, where Python would convert the ones that spell a
    number. *)
Definition py_int (x : value) : result Z :=
  match x with
  | VInt n => Ok n
  | VBool b => Ok (if b then 1 else 0)
  | _ => Raise (TypeError "int")
  end.

Section LocalTime.

(** The offset from UTC, in seconds, that the executing machine applies
    at a given instant (seconds since the epoch). *)
Variable utcoffset : Z -> Z.

(** [datetime.fromtimestamp(t)] for [t] given as whole seconds and
    microseconds: local time, no tzinfo; years outside 1..9999 are
    refused.  CPython refuses the first local day of the year 1 as well,
    and answers instants far outside the range with [OverflowError]. *)
Definition fromtimestamp (secs us : Z) : result datetime :=
  let l := secs + utcoffset secs in
  let '(y, m, d) := civil_from_days (l / 86400) in
  let s := l mod 86400 in
  if (1 <=? y) && (y <=? 9999)
  then Ok (mkDatetime y m d (s / 3600) (s mod 3600 / 60) (s mod 60) us)
  else Raise (ValueError "year is out of range").

(** Line 83: [lambda x: str(int(int(x)/1000))].  The quotient is a float
    and [int] truncates it toward zero; beyond some 10^16 milliseconds,
    far past the calendar, the float can reach the next whole second. *)
Definition get_timestamp (x : value) : result value :=
  n ← py_int x;
  Ok (VStr (str_int (Z.quot n 1000))).

(** Line 87: [lambda x: str(datetime.fromtimestamp(int(x) / 1000.0))].
    The float [int(x) / 1000.0] is taken as [x / 1000] whole seconds and
    [x mod 1000] milliseconds, which is what Python's rounding to the
    microsecond recovers from it for instants between 1698 and 2242;
    farther out the float carries fewer digits and the printed
    microseconds can differ, the other fields cannot. *)
Definition get_datetime (x : value) : result value :=
  n ← py_int x;
  t ← fromtimestamp (n / 1000) (n mod 1000 * 1000);
  Ok (VStr (str_datetime t)).

End LocalTime.

(** ** Spark's date functions on a string column *)

Definition digit_val (c : ascii) : option Z :=
  let n := Z.of_nat (nat_of_ascii c) in
  if (48 <=? n) && (n <=? 57) then Some (n - 48) else None.

Fixpoint digits_val (acc : Z) (s : string) : option Z :=
  match s with
  | EmptyString => Some acc
  | String c s' => d ← digit_val c; digits_val (10 * acc + d) s'
  end.

(** The number written in the [len] characters of [s] from [pos] on. *)
Definition field (pos len : nat) (s : string) : option Z :=
  let f := substring pos len s in
  if (String.length f =? len)%nat then digits_val 0 f else None.

Definition char_at (pos : nat) (c : ascii) (s : string) : bool :=
  match String.get pos s with
  | Some c' => Ascii.eqb c' c
  | None => false
  end.

(** The cast of a string to a timestamp that Spark inserts under [hour],
    [dayofmonth], [weekofyear], [month] and [year].  The layouts accepted
    here are the two that [str_datetime] prints, [yyyy-MM-dd HH:mm:ss] with
    or without six fraction digits; anything else, and any field out of
    its calendar range, casts to null.  The string is read and the fields
    are taken in the same (session) time zone, so the fields are the ones
    written in the string. *)
Definition to_timestamp (s : string) : option datetime :=
  y ← field 0 4 s; m ← field 5 2 s; d ← field 8 2 s;
  H ← field 11 2 s; M ← field 14 2 s; S ← field 17 2 s;
  us ← (if (String.length s =? 19)%nat then Some 0
        else if char_at 19 "." s && (String.length s =? 26)%nat then field 20 6 s
        else None);
  if char_at 4 "-" s && char_at 7 "-" s && char_at 10 " " s
     && char_at 13 ":" s && char_at 16 ":" s
     && (1 <=? m) && (m <=? 12) && (1 <=? d) && (d <=? days_in_month y m)
     && (H <? 24) && (M <? 60) && (S <? 60)
  then Some (mkDatetime y m d H M S us)
  else None.

(** The datetimes that [fromtimestamp] can return. *)
Definition valid_datetime (t : datetime) : Prop :=
  1 <= dt_year t <= 9999 /\ 1 <= dt_month t <= 12 /\
  1 <= dt_day t <= days_in_month (dt_year t) (dt_month t) /\
  0 <= dt_hour t < 24 /\ 0 <= dt_minute t < 60 /\ 0 <= dt_second t < 60 /\
  0 <= dt_microsecond t < 1000000.

(** A date function on a cell: null for a null cell and for a string that
    does not cast.  The program applies these to the string column
    ['datetime'] only. *)
Definition date_part (f : datetime -> Z) (v : value) : value :=
  match v with
  | VStr s => match to_timestamp s with Some t => VInt (f t) | None => VNull end
  | _ => VNull
  end.

Definition hour : value -> value := date_part dt_hour.
Definition dayofmonth : value -> value := date_part dt_day.
Definition month : value -> value := date_part dt_month.
Definition year : value -> value := date_part dt_year.
Definition weekofyear : value -> value :=
  date_part (fun t => iso_week (dt_year t) (dt_month t) (dt_day t)).

Definition date_fn (f : fn) (v : value) : value :=
  match f with
  | FCol => v
  | FHour => hour v
  | FDayOfMonth => dayofmonth v
  | FWeekOfYear => weekofyear v
  | FMonth => month v
  | FYear => year v
  end.

Definition col (c : string) : expr := mkExpr FCol c c.
Definition alias (e : expr) (a : string) : expr := mkExpr (e_fn e) (e_col e) a.
Definition fn_of (f : fn) (c : string) : expr := mkExpr f c c.

Definition sql_select : list expr -> DataFrame -> result DataFrame := select date_fn.

(** [df.selectExpr('a', 'b', ...)] and [df['a', 'b', ...]] with plain column
    names. *)
Definition selectExpr (cs : list string) : DataFrame -> result DataFrame :=
  sql_select (map col cs).

(** ** The Python side: names, storage and the sink *)

(** What the reader sees under a path pattern: the frame that
    [spark.read.json] builds from the matching files. *)
Record SparkSession : Type := mkSession { files : gmap string DataFrame }.

(** The objects that the two functions bind to local names. *)
Inductive pyobj : Type :=
| PStr (s : string)
| PFrame (df : DataFrame)
| PUdf (f : value -> result value)
| PSession (s : SparkSession)
| PGlobal (name : string).

(** A table at rest: the columns it is partitioned by and its contents. *)
Abbreviation Sink := (gmap string (list string * DataFrame)).

Record state : Type := mkState {
  locals : gmap string pyobj;
  sink : Sink
}.

(** A statement runs in a state and leaves one behind, also when it
    raises. *)
Definition Py (A : Type) : Type := state -> result A * state.

#[global] Instance Py_ret : MRet Py := fun A a st => (Ok a, st).

#[global] Instance Py_bind : MBind Py := fun A B k m st =>
  match m st with
  | (Ok a, st') => k a st'
  | (Raise e, st') => (Raise e, st')
  end.

Definition lift {A} (r : result A) : Py A := fun st => (r, st).

(** The names bound at module level when a function of [etl.py] runs. *)
Definition module_globals : list string :=
  [ "configparser"; "datetime"; "os"; "SparkSession"; "TimestampType"; "udf"; "col";
    "year"; "month"; "dayofmonth"; "hour"; "weekofyear"; "date_format";
    "monotonically_increasing_id"; "Window"; "config";
    "create_spark_session"; "process_song_data"; "process_log_data"; "main" ].

(** [name = obj] *)
Definition assign (name : string) (o : pyobj) : Py unit := fun st =>
  (Ok tt, mkState (<[name := o]> (locals st)) (sink st)).

(** Reading a name: the local binding, else the module's, else
    [NameError]. *)
Definition load (name : string) : Py pyobj := fun st =>
  match locals st !! name with
  | Some o => (Ok o, st)
  | None =>
      if bool_decide (name ∈ module_globals) then (Ok (PGlobal name), st)
      else (Raise (NameError name), st)
  end.

Definition load_frame (name : string) : Py DataFrame :=
  o ← load name;
  match o with
  | PFrame df => mret df
  | _ => lift (Raise (TypeError name))
  end.

Definition load_str (name : string) : Py string :=
  o ← load name;
  match o with
  | PStr s => mret s
  | _ => lift (Raise (TypeError name))
  end.

Definition load_udf (name : string) : Py (value -> result value) :=
  o ← load name;
  match o with
  | PUdf f => mret f
  | _ => lift (Raise (TypeError name))
  end.

Definition load_session (name : string) : Py SparkSession :=
  o ← load name;
  match o with
  | PSession s => mret s
  | _ => lift (Raise (TypeError name))
  end.

(** [os.path.join(a, b)] of [posixpath]. *)
Definition ends_with_sep (a : string) : bool :=
  char_at (Nat.pred (String.length a)) "/" a.

Definition os_path_join (a b : string) : string :=
  if String.prefix "/" b then b
  else if bool_decide (a = "") || ends_with_sep a then a ++ b
  else a ++ "/" ++ b.

(** [spark.read.json(path)] *)
Definition read_json (spark : SparkSession) (path : string) : result DataFrame :=
  match files spark !! path with
  | Some df => Ok df
  | None => Raise (AnalysisException "Path does not exist")
  end.

(** [df.write.partitionBy(cs).parquet(path, 'overwrite')]: the partition
    columns must be columns of the frame; what was under [path] is
    replaced. *)
Definition write_parquet (df : DataFrame) (cs : list string) (path : string) : Py unit :=
  fun st =>
    match List.find (fun c => negb (has_column c df)) cs with
    | Some c => (Raise (AnalysisException c), st)
    | None => (Ok tt, mkState (locals st) (<[path := (cs, df)]> (sink st)))
    end.

(** [column.write...]: a [Column] answers any attribute with another
    column, and a column cannot be called. *)
Definition write_via_column (c : string) : Py unit :=
  lift (Raise (TypeError "'Column' object is not callable")).

(** The parameters of a call are its first local names. *)
Definition enter (spark : SparkSession) (input_data output_data : string) : Py unit :=
  fun st =>
    (Ok tt,
     mkState (<["output_data" := PStr output_data]>
               (<["input_data" := PStr input_data]> {["spark" := PSession spark]}))
       (sink st)).

(** ** The tables of the song pipeline (lines 38-42 and 48-52) *)

Definition songs_table (df : DataFrame) : result DataFrame :=
  t ← selectExpr ["song_id"; "title"; "artist_id"; "year"; "duration"] df;
  t ← orderBy "song_id" t;
  drop_duplicates t.

Definition artists_table (df : DataFrame) : result DataFrame :=
  t ← selectExpr ["artist_id"; "artist_name"; "artist_location";
                  "artist_latitude"; "artist_longitude"] df;
  dropDuplicates ["artist_id"] t.

(** ** [process_song_data] (lines 23-55) *)

Definition process_song_data (spark : SparkSession) (input_data output_data : string) : Py unit :=
  enter spark input_data output_data;;
  (* 32 *)
  input ← load_str "input_data";
  assign "song_data" (PStr (os_path_join input "song_data/*/*/*/*.json"));;
  (* 35 *)
  session ← load_session "spark";
  song_data ← load_str "song_data";
  df ← lift (read_json session song_data);
  assign "df" (PFrame df);;
  (* 38-42 *)
  df ← load_frame "df";
  t ← lift (songs_table df);
  assign "songs_table" (PFrame t);;
  (* 45: songs_table.songs_table.write.partitionBy(...).parquet(...) *)
  t ← load_frame "songs_table";
  c ← lift (getattr t "songs_table");
  write_via_column c;;
  (* 48-52 *)
  df ← load_frame "df";
  t ← lift (artists_table df);
  assign "artists_table" (PFrame t);;
  (* 55 *)
  t ← load_frame "artists_table";
  output ← load_str "output_data";
  write_parquet t [] (os_path_join output "artists.parquet").

(** ** The tables of the log pipeline *)

(** Lines 76-77, the projection of the users; the program binds it to the
    name [artists_table]. *)
Definition users_projection (df : DataFrame) : result DataFrame :=
  t ← selectExpr ["userId"; "firstName"; "lastName"; "gender"; "level"] df;
  dropDuplicates ["userId"] t.

(** Lines 91-98. *)
Definition time_table (df : DataFrame) : result DataFrame :=
  t ← sql_select
        [ alias (col "datetime") "start_time";
          alias (fn_of FHour "datetime") "hour";
          alias (fn_of FDayOfMonth "datetime") "day";
          alias (fn_of FWeekOfYear "datetime") "week";
          alias (fn_of FMonth "datetime") "month";
          alias (fn_of FYear "datetime") "year" ] df;
  dropDuplicates ["start_time"] t.

(** Lines 108-119. *)
Definition songplays_table (df : DataFrame) : result DataFrame :=
  t ← sql_select
        [ alias (col "ts") "ts";
          alias (col "sessionId") "session_id";
          alias (col "userId") "user_id";
          alias (col "artist_id") "artist_id";
          alias (col "song_id") "song_id";
          alias (col "level") "level";
          alias (col "location") "location";
          alias (col "userAgent") "user_agent";
          alias (fn_of FMonth "datetime") "month";
          alias (col "year") "year" ] df;
  Ok (withColumn_id "songplay_id" t).

Section LogPipeline.

Variable utcoffset : Z -> Z.

(** Lines 84 and 88: the frame with the two derived columns. *)
Definition with_times (df : DataFrame) : result DataFrame :=
  df ← withColumn_udf "timestamp" get_timestamp "ts" df;
  withColumn_udf "datetime" (get_datetime utcoffset) "ts" df.

(** ** [process_log_data] (lines 58-124) *)

Definition process_log_data (spark : SparkSession) (input_data output_data : string) : Py unit :=
  enter spark input_data output_data;;
  (* 67 *)
  input ← load_str "input_data";
  assign "log_data" (PStr (os_path_join input "log_data/*/*/*/*.json"));;
  (* 70 *)
  session ← load_session "spark";
  log_data ← load_str "log_data";
  df ← lift (read_json session log_data);
  assign "df" (PFrame df);;
  (* 73 *)
  df ← load_frame "df";
  df ← lift (filter_next_song df);
  assign "df" (PFrame df);;
  (* 76-77 *)
  df ← load_frame "df";
  t ← lift (users_projection df);
  assign "artists_table" (PFrame t);;
  (* 80 *)
  t ← load_frame "users_table";
  output ← load_str "output_data";
  write_parquet t [] (os_path_join output "users.parquet");;
  (* 83-84 *)
  assign "get_timestamp" (PUdf get_timestamp);;
  df ← load_frame "df";
  f ← load_udf "get_timestamp";
  df ← lift (withColumn_udf "timestamp" f "ts" df);
  assign "df" (PFrame df);;
  (* 87-88 *)
  assign "get_datetime" (PUdf (get_datetime utcoffset));;
  df ← load_frame "df";
  f ← load_udf "get_datetime";
  df ← lift (withColumn_udf "datetime" f "ts" df);
  assign "df" (PFrame df);;
  (* 91-98 *)
  df ← load_frame "df";
  t ← lift (time_table df);
  assign "time_table" (PFrame t);;
  (* 101-102 *)
  t ← load_frame "time_table";
  output ← load_str "output_data";
  write_parquet t ["year"; "month"] (os_path_join output "time.parquet");;
  (* 105 *)
  input ← load_str "input_data";
  assign "song_df" (PStr (os_path_join input "song_data/*/*/*/*.json"));;
  (* 108-119 *)
  df ← load_frame "df";
  t ← lift (songplays_table df);
  assign "songplays_table" (PFrame t);;
  (* 123-124 *)
  t ← load_frame "songplays_table";
  output ← load_str "output_data";
  write_parquet t ["year"; "month"] (os_path_join output "songplays.parquet").

(** The three tables as the statements above compute them from the frame
    read at line 70, the writes left aside. *)
Definition derive_users (raw : DataFrame) : result DataFrame :=
  df ← filter_next_song raw;
  users_projection df.

Definition derive_time (raw : DataFrame) : result DataFrame :=
  df ← filter_next_song raw;
  df ← with_times df;
  time_table df.

Definition derive_songplays (raw : DataFrame) : result DataFrame :=
  df ← filter_next_song raw;
  df ← with_times df;
  songplays_table df.

(** The songplays rows that a run over the session's files derives. *)
Definition run_songplays (spark : SparkSession) (input_data : string) : result DataFrame :=
  raw ← read_json spark (os_path_join input_data "log_data/*/*/*/*.json");
  derive_songplays raw.

End LogPipeline.

(** [main] (lines 127-135) *)
Definition main (utcoffset : Z -> Z) (spark : SparkSession) : Py unit :=
  process_song_data spark "s3a://udacity-dend/" "s3://nadabucket19/proj4/";;
  process_log_data utcoffset spark "s3a://udacity-dend/" "s3://nadabucket19/proj4/".

(** ** Columns the tables are built from *)

Definition song_columns : list string := ["song_id"; "title"; "artist_id"; "year"; "duration"].

Definition user_columns : list string := ["userId"; "firstName"; "lastName"; "gender"; "level"].

(** The exception that a run of [process_log_data] ends with, given what
    the reader returns for the log data. *)
Definition log_outcome (r : result DataFrame) : exn :=
  match r ≫= derive_users with
  | Ok _ => NameError "users_table"
  | Raise e => e
  end.

(** The cells of a frame, row by row in the order of its schema. *)
Definition cells (df : DataFrame) : list (list (list value)) :=
  map (map (key_of (columns df))) (partitions df).

Definition cells_of (r : result DataFrame) : result (list (list (list value))) :=
  df ← r; Ok (cells df).

(** One column of a frame, in scan order. *)
Definition column (c : string) (df : DataFrame) : list value := map (cell c) (rows df).

Definition column_of (c : string) (r : result DataFrame) : result (list value) :=
  df ← r; Ok (column c df).

(** The ids that [monotonically_increasing_id] hands out to a frame whose
    partitions have the given sizes, the first partition having index
    [from]. *)
Fixpoint frame_ids (from : nat) (sizes : list nat) : list Z :=
  match sizes with
  | [] => []
  | n :: sizes' => (map (monotonic_id from) (seq 0 n) ++ frame_ids (S from) sizes')%list
  end.

(** ** Sample data *)

Definition utc : Z -> Z := fun _ => 0.

Definition row_of (l : list (string * value)) : Row := list_to_map l.

(** Two song records that share [song_id] and differ in [year]. *)
Definition song_a : Row :=
  row_of [ ("song_id", VStr "SOXXXX"); ("title", VStr "Setanta matins");
           ("artist_id", VStr "ARXXXX"); ("artist_name", VStr "Elena");
           ("artist_location", VStr "Dubai UAE"); ("artist_latitude", VNull);
           ("artist_longitude", VNull); ("year", VInt 2000);
           ("duration", VDbl 4643484568181812920); ("num_songs", VInt 1) ].

Definition song_b : Row := <["year" := VInt 2001]> song_a.

Definition song_schema : list string :=
  [ "artist_id"; "artist_latitude"; "artist_location"; "artist_longitude";
    "artist_name"; "duration"; "num_songs"; "song_id"; "title"; "year" ].

Definition song_frame : DataFrame := mkFrame song_schema [[song_a]; [song_b]].

(** A [NextSong] event for the song above and a [Home] event, with the
    columns of the log data. *)
Definition log_schema : list string :=
  [ "artist"; "auth"; "firstName"; "gender"; "itemInSession"; "lastName"; "length";
    "level"; "location"; "method"; "page"; "registration"; "sessionId"; "song";
    "status"; "ts"; "userAgent"; "userId" ].

Definition play : Row :=
  row_of [ ("artist", VStr "Elena"); ("auth", VStr "Logged In");
           ("firstName", VStr "Celeste"); ("gender", VStr "F");
           ("itemInSession", VInt 1); ("lastName", VStr "Williams");
           ("length", VDbl 4643484568181812920); ("level", VStr "free");
           ("location", VStr "Klamath Falls, OR"); ("method", VStr "PUT");
           ("page", VStr "NextSong"); ("registration", VDbl 4809492379472306176);
           ("sessionId", VInt 438); ("song", VStr "Setanta matins");
           ("status", VInt 200); ("ts", VInt 1541990258796);
           ("userAgent", VStr "Mozilla/5.0"); ("userId", VStr "53") ].

Definition home : Row :=
  <["page" := VStr "Home"]> (<["song" := VNull]> (<["artist" := VNull]>
    (<["length" := VNull]> (<["ts" := VInt 1541990217796]> play)))).

Definition log_frame : DataFrame := mkFrame log_schema [[home; play]].

(** The same events in a log that carries columns [artist_id], [song_id]
    and [year] of its own. *)
Definition tagged (r : Row) : Row :=
  <["year" := VInt 1999]> (<["song_id" := VStr "from-the-log"]>
    (<["artist_id" := VStr "from-the-log"]> r)).

Definition tagged_log_frame : DataFrame :=
  mkFrame (log_schema ++ ["artist_id"; "song_id"; "year"])
    [[tagged home; tagged play]; [tagged play]].

Definition session_of (songs log : DataFrame) : SparkSession :=
  mkSession (<["s3a://udacity-dend/log_data/*/*/*/*.json" := log]>
               {["s3a://udacity-dend/song_data/*/*/*/*.json" := songs]}).

Definition start : state := mkState ∅ ∅.

(** The tables that the sample logs give. *)
Definition sample_time_table : DataFrame :=
  Eval vm_compute in
    match derive_time utc log_frame with
    | Ok t => t
    | Raise _ => mkFrame [] []
    end.

Definition sample_songplays : DataFrame :=
  Eval vm_compute in
    match derive_songplays utc tagged_log_frame with
    | Ok t => t
    | Raise _ => mkFrame [] []
    end.

(** ** More of the pipelines *)

Definition artist_columns : list string :=
  ["artist_id"; "artist_name"; "artist_location"; "artist_latitude"; "artist_longitude"].

(** The rows that the filter of line 73 keeps, in scan order. *)
Definition next_songs (raw : DataFrame) : list Row :=
  concat (map (List.filter is_next_song) (partitions raw)).

(** The columns that the select of lines 108-118 copies, with the names
    they get. *)
Definition copied_columns : list (string * string) :=
  [ ("ts", "ts"); ("sessionId", "session_id"); ("userId", "user_id");
    ("artist_id", "artist_id"); ("song_id", "song_id"); ("level", "level");
    ("location", "location"); ("userAgent", "user_agent"); ("year", "year") ].

(** The log pipeline with lines 83-84 left out: only the column
    ['datetime'] is added. *)
Definition derive_time_datetime_only (utcoffset : Z -> Z) (raw : DataFrame) : result DataFrame :=
  df ← filter_next_song raw;
  df ← withColumn_udf "datetime" (get_datetime utcoffset) "ts" df;
  time_table df.

Definition derive_songplays_datetime_only (utcoffset : Z -> Z) (raw : DataFrame) : result DataFrame :=
  df ← filter_next_song raw;
  df ← withColumn_udf "datetime" (get_datetime utcoffset) "ts" df;
  songplays_table df.

(** A user who is first heard on the free level and later on the paid
    one. *)
Definition two_levels_frame : DataFrame :=
  mkFrame log_schema [[home; play]; [<["level" := VStr "paid"]> play]].

Definition table_or_empty (r : result DataFrame) : DataFrame :=
  match r with
  | Ok t => t
  | Raise _ => mkFrame [] []
  end.

Definition sample_artists : DataFrame :=
  Eval vm_compute in table_or_empty (artists_table song_frame).

Definition sample_users : DataFrame :=
  Eval vm_compute in table_or_empty (derive_users two_levels_frame).

Definition sample_songs : DataFrame :=
  Eval vm_compute in table_or_empty (songs_table song_frame).

(** The cell a function gives where it returns one. *)
Definition udf_value (udf : value -> result value) (v : value) : value :=
  match udf v with
  | Ok x => x
  | Raise _ => VNull
  end.

(** The expressions of the selects of lines 91-97 and 108-118. *)
Definition time_exprs : list expr :=
  [ alias (col "datetime") "start_time";
    alias (fn_of FHour "datetime") "hour";
    alias (fn_of FDayOfMonth "datetime") "day";
    alias (fn_of FWeekOfYear "datetime") "week";
    alias (fn_of FMonth "datetime") "month";
    alias (fn_of FYear "datetime") "year" ].

Definition songplays_exprs : list expr :=
  [ alias (col "ts") "ts";
    alias (col "sessionId") "session_id";
    alias (col "userId") "user_id";
    alias (col "artist_id") "artist_id";
    alias (col "song_id") "song_id";
    alias (col "level") "level";
    alias (col "location") "location";
    alias (col "userAgent") "user_agent";
    alias (fn_of FMonth "datetime") "month";
    alias (col "year") "year" ].

(** A log row with the two columns of lines 84 and 88. *)
Definition timed (utcoffset : Z -> Z) (r : Row) : Row :=
  <["datetime" := udf_value (get_datetime utcoffset) (cell "ts" r)]>
    (<["timestamp" := udf_value get_timestamp (cell "ts" r)]> r).

(** A [NextSong] record that has no [ts]. *)
Definition no_ts_frame : DataFrame :=
  mkFrame log_schema [[play; <["ts" := VNull]> play]].

(** The exception that a run of [process_song_data] ends with, given what
    the reader returns for the song data. *)
Definition song_outcome (r : result DataFrame) : exn :=
  match r ≫= songs_table with
  | Ok _ => AttributeError "songs_table"
  | Raise e => e
  end.

(** Log data without a [page], and a session without files. *)
Definition bare_log_frame : DataFrame := mkFrame ["userId"; "ts"] [[play]].

Definition no_files : SparkSession := mkSession ∅.

(** Song data in which one record occurs twice. *)
Definition repeated_song_frame : DataFrame := mkFrame song_schema [[song_a; song_a]].

Definition sample_repeated_songs : DataFrame :=
  Eval vm_compute in table_or_empty (songs_table repeated_song_frame).

(** A log frame whose first partition holds [n] copies of one [NextSong]
    record and whose second partition holds one more. *)
Definition crowded_frame (n : nat) : DataFrame :=
  mkFrame (columns tagged_log_frame) [replicate n (tagged play); [tagged play]].

(** The cells that Spark's grouping compares bit for bit: every cell that
    is not a double, and every double but the negative zero and the NaNs,
    which it first replaces by the positive zero and by one NaN. *)
Definition is_nan (bits : Z) : bool :=
  ((bits / 2 ^ 52) mod 2 ^ 11 =? 2047) && negb (bits mod 2 ^ 52 =? 0).

Definition exact_cell (v : value) : bool :=
  match v with
  | VDbl bits => negb (bits =? 2 ^ 63) && negb (is_nan bits)
  | _ => true
  end.
(** * Properties *)

(** ** Running statements *)

Lemma run_bind {A B} (m : Py A) (k : A -> Py B) (st : state) :
  (m ≫= k) st =
  match m st with
  | (Ok a, st') => k a st'
  | (Raise e, st') => (Raise e, st')
  end.
Proof. reflexivity. Qed.

Lemma run_load (name : string) (o : pyobj) (st : state) :
  locals st !! name = Some o -> load name st = (Ok o, st).
Proof. intros H. unfold load. by rewrite H. Qed.

Lemma run_load_frame (name : string) (df : DataFrame) (st : state) :
  locals st !! name = Some (PFrame df) -> load_frame name st = (Ok df, st).
Proof. intros H. unfold load_frame. rewrite run_bind, (run_load _ _ _ H). reflexivity. Qed.

Lemma run_load_str (name s : string) (st : state) :
  locals st !! name = Some (PStr s) -> load_str name st = (Ok s, st).
Proof. intros H. unfold load_str. rewrite run_bind, (run_load _ _ _ H). reflexivity. Qed.

Lemma run_load_session (name : string) (s : SparkSession) (st : state) :
  locals st !! name = Some (PSession s) -> load_session name st = (Ok s, st).
Proof. intros H. unfold load_session. rewrite run_bind, (run_load _ _ _ H). reflexivity. Qed.

Lemma run_load_unbound (name : string) (st : state) :
  locals st !! name = None -> name ∉ module_globals ->
  load_frame name st = (Raise (NameError name), st).
Proof.
  intros H Hg. unfold load_frame, load. rewrite run_bind, H.
  by rewrite bool_decide_eq_false_2.
Qed.

Lemma run_assign (name : string) (o : pyobj) (st : state) :
  assign name o st = (Ok tt, mkState (<[name := o]> (locals st)) (sink st)).
Proof. reflexivity. Qed.

Lemma run_lift {A} (r : result A) (st : state) : lift r st = (r, st).
Proof. reflexivity. Qed.

Lemma run_enter (spark : SparkSession) (input_data output_data : string) (st : state) :
  enter spark input_data output_data st =
  (Ok tt,
   mkState (<["output_data" := PStr output_data]>
             (<["input_data" := PStr input_data]> {["spark" := PSession spark]}))
     (sink st)).
Proof. reflexivity. Qed.

(** One statement of a function body: split the sequence, run its head. *)
Ltac py_lookup := cbn [locals]; reflexivity.

Ltac py_run :=
  rewrite run_bind;
  first
    [ erewrite run_load_frame by py_lookup
    | erewrite run_load_str by py_lookup
    | erewrite run_load_session by py_lookup
    | rewrite run_enter
    | rewrite run_assign
    | rewrite run_lift ];
  cbv beta iota; cbn [locals sink].

(** ** Schemas of the derived frames *)

Lemma find_none_all {A} (f : A -> bool) (l : list A) :
  (forall x, x ∈ l -> f x = false) -> List.find f l = None.
Proof.
  induction l as [|a l IH]; intros H; [reflexivity|].
  simpl. rewrite (H a) by left. apply IH. intros x Hx. apply H. by right.
Qed.

Lemma select_columns fnv es df t :
  select fnv es df = Ok t -> columns t = map e_alias es.
Proof. unfold select. destruct (List.find _ es); [discriminate|]. by intros [= <-]. Qed.

Lemma select_ok fnv es df :
  (forall e, e ∈ es -> e_col e ∈ columns df) ->
  select fnv es df = Ok (mkFrame (map e_alias es) (map (map (project fnv es)) (partitions df))).
Proof.
  intros H. unfold select. rewrite find_none_all; [reflexivity|].
  intros e He. unfold has_column. by rewrite bool_decide_eq_true_2 by auto.
Qed.

Lemma dropDuplicates_columns cs df t :
  dropDuplicates cs df = Ok t -> columns t = columns df.
Proof. unfold dropDuplicates. destruct (List.find _ cs); [discriminate|]. by intros [= <-]. Qed.

Lemma dropDuplicates_ok cs df :
  (forall c, c ∈ cs -> c ∈ columns df) ->
  dropDuplicates cs df = Ok (mkFrame (columns df) [first_by_key cs [] (rows df)]).
Proof.
  intros H. unfold dropDuplicates. rewrite find_none_all; [reflexivity|].
  intros c Hc. unfold has_column. by rewrite bool_decide_eq_true_2 by auto.
Qed.

Lemma orderBy_columns c df t : orderBy c df = Ok t -> columns t = columns df.
Proof. unfold orderBy. destruct (has_column c df); [|discriminate]. by intros [= <-]. Qed.

Lemma bind_ok {A B} (m : result A) (k : A -> result B) (b : B) :
  m ≫= k = Ok b -> exists a, m = Ok a /\ k a = Ok b.
Proof. destruct m as [a|e]; [|discriminate]. intros H. by exists a. Qed.

Lemma songs_table_columns df t : songs_table df = Ok t -> columns t = song_columns.
Proof.
  unfold songs_table, selectExpr, sql_select. intros H.
  apply bind_ok in H as (t1 & H1 & H).
  apply bind_ok in H as (t2 & H2 & H).
  apply dropDuplicates_columns in H. apply orderBy_columns in H2.
  apply select_columns in H1. rewrite H, H2, H1. reflexivity.
Qed.

Lemma songs_table_ok df :
  (forall c, c ∈ song_columns -> c ∈ columns df) -> exists t, songs_table df = Ok t.
Proof.
  intros H. unfold songs_table, selectExpr, sql_select.
  rewrite select_ok.
  2:{ intros e He. apply H. apply list_elem_of_fmap in He as (c & -> & Hc). exact Hc. }
  cbn [mbind result_bind]. unfold orderBy, has_column. cbn [columns map e_alias col].
  rewrite bool_decide_eq_true_2 by (repeat constructor).
  cbn [mbind result_bind]. unfold drop_duplicates. rewrite dropDuplicates_ok by auto. eauto.
Qed.

(** ** C8 *)

(** Every run of [process_song_data] ends in an exception, with the sink of
    the state it started in. *)
Lemma process_song_data_run
    (spark : SparkSession) (input_data output_data : string) (st : state)
    (P : result unit * state -> Prop) :
  (forall e st',
      sink st' = sink st ->
      (forall df,
          read_json spark (os_path_join input_data "song_data/*/*/*/*.json") = Ok df ->
          (forall c, c ∈ song_columns -> c ∈ columns df) ->
          e = AttributeError "songs_table") ->
      P (Raise e, st')) ->
  P (process_song_data spark input_data output_data st).
Proof.
  intros HP. unfold process_song_data.
  do 6 py_run.
  destruct (read_json spark _) as [df|e] eqn:Hread; cbv beta iota.
  { do 3 py_run.
    destruct (songs_table df) as [t|e] eqn:Ht; cbv beta iota.
    - do 3 py_run.
      unfold getattr, has_column. rewrite (songs_table_columns _ _ Ht).
      rewrite bool_decide_eq_false_2.
      + apply HP; [reflexivity|]. reflexivity.
      + unfold song_columns. rewrite !elem_of_cons, elem_of_nil. intros H.
        repeat (destruct H as [H|H]; [discriminate|]). exact H.
    - apply HP; [reflexivity|]. intros df' [= <-] Hc.
      destruct (songs_table_ok df Hc) as [t' Ht']. congruence. }
  apply HP; [reflexivity|]. intros df [=].
Qed.

(** C8. [process_song_data] never completes and leaves the sink as it found
    it: whatever the session holds, the call raises and neither the songs
    nor the artists table is written.  When the song data can be read and
    carries the five song columns, the exception is the [AttributeError]
    for [songs_table] raised by line 45. *)
Theorem process_song_data_raises_at_songs_write
    (spark : SparkSession) (input_data output_data : string) (st : state) :
  let out := process_song_data spark input_data output_data st in
  (exists e, fst out = Raise e) /\
  sink (snd out) = sink st /\
  (forall df,
      read_json spark (os_path_join input_data "song_data/*/*/*/*.json") = Ok df ->
      (forall c, c ∈ song_columns -> c ∈ columns df) ->
      fst out = Raise (AttributeError "songs_table")).
Proof.
  cbv zeta. apply process_song_data_run. intros e st' Hs He. cbn [fst snd].
  split; [eauto|]. split; [exact Hs|]. intros df Hr Hc. by rewrite (He df Hr Hc).
Qed.

(** ** C9 *)

Lemma filter_next_song_ok df :
  "page" ∈ columns df ->
  filter_next_song df =
  Ok (mkFrame (columns df) (map (List.filter is_next_song) (partitions df))).
Proof.
  intros H. unfold filter_next_song, getattr, has_column.
  by rewrite bool_decide_eq_true_2.
Qed.

Lemma filter_next_song_columns df t : filter_next_song df = Ok t -> columns t = columns df.
Proof.
  unfold filter_next_song. intros H. apply bind_ok in H as (? & _ & H).
  by injection H as <-.
Qed.

Lemma users_projection_ok df :
  (forall c, c ∈ user_columns -> c ∈ columns df) -> exists t, users_projection df = Ok t.
Proof.
  intros H. unfold users_projection, selectExpr, sql_select.
  rewrite select_ok.
  2:{ intros e He. apply H. apply list_elem_of_fmap in He as (c & -> & Hc). exact Hc. }
  cbn [mbind result_bind]. rewrite dropDuplicates_ok; [eauto|].
  intros c Hc. apply list_elem_of_singleton in Hc as ->. cbn. left.
Qed.

(** Every run of [process_log_data] ends in an exception at line 80 or
    before, with the sink of the state it started in. *)
Lemma process_log_data_run
    (utcoffset : Z -> Z) (spark : SparkSession) (input_data output_data : string)
    (st : state) (P : result unit * state -> Prop) :
  (forall st',
      sink st' = sink st ->
      (forall raw t,
          read_json spark (os_path_join input_data "log_data/*/*/*/*.json") = Ok raw ->
          derive_users raw = Ok t ->
          locals st' !! "users_table" = None /\
          locals st' !! "artists_table" = Some (PFrame t)) ->
      P (Raise (log_outcome
                  (read_json spark (os_path_join input_data "log_data/*/*/*/*.json"))),
         st')) ->
  P (process_log_data utcoffset spark input_data output_data st).
Proof.
  intros HP. unfold process_log_data.
  do 6 py_run.
  destruct (read_json spark _) as [raw|e] eqn:Hread; cbv beta iota.
  2:{ apply HP; [reflexivity|]. intros ? ? [=]. }
  do 3 py_run.
  destruct (filter_next_song raw) as [df|e] eqn:Hf; cbv beta iota.
  2:{ replace e with (log_outcome (Ok raw))
        by (unfold log_outcome, derive_users; cbn [mbind result_bind]; by rewrite Hf).
      apply HP; [reflexivity|]. intros raw' t [= <-]. unfold derive_users.
      rewrite Hf. intros [=]. }
  do 3 py_run.
  destruct (users_projection df) as [t|e] eqn:Ht; cbv beta iota.
  2:{ replace e with (log_outcome (Ok raw))
        by (unfold log_outcome, derive_users; cbn [mbind result_bind]; rewrite Hf;
            cbn [mbind result_bind]; by rewrite Ht).
      apply HP; [reflexivity|]. intros raw' t' [= <-]. unfold derive_users.
      rewrite Hf. cbn [mbind result_bind]. rewrite Ht. intros [=]. }
  py_run. rewrite run_bind, run_load_unbound.
  - replace (NameError "users_table") with (log_outcome (Ok raw))
      by (unfold log_outcome, derive_users; cbn [mbind result_bind]; rewrite Hf;
          cbn [mbind result_bind]; by rewrite Ht).
    apply HP; [reflexivity|]. intros raw' t' [= <-]. unfold derive_users.
    rewrite Hf. cbn [mbind result_bind]. rewrite Ht. intros [= <-]. split; reflexivity.
  - reflexivity.
  - unfold module_globals. rewrite !elem_of_cons, elem_of_nil. intros H.
    repeat (destruct H as [H|H]; [discriminate|]). exact H.
Qed.

Lemma derive_users_ok raw :
  "page" ∈ columns raw -> (forall c, c ∈ user_columns -> c ∈ columns raw) ->
  exists t, derive_users raw = Ok t.
Proof.
  intros Hp Hc. unfold derive_users. rewrite filter_next_song_ok by done.
  cbn [mbind result_bind]. apply users_projection_ok. exact Hc.
Qed.

(** C9. [process_log_data] never completes and leaves the sink as it found
    it, so no users, time or songplays table is written.  When the log data
    can be read and carries [page] and the five user columns, the users
    projection is bound to the name [artists_table], the name [users_table]
    is bound to nothing, and the exception is the [NameError] for
    [users_table] raised by line 80. *)
Theorem process_log_data_raises_at_users_write
    (utcoffset : Z -> Z) (spark : SparkSession) (input_data output_data : string)
    (st : state) :
  let out := process_log_data utcoffset spark input_data output_data st in
  (exists e, fst out = Raise e) /\
  sink (snd out) = sink st /\
  (forall raw,
      read_json spark (os_path_join input_data "log_data/*/*/*/*.json") = Ok raw ->
      "page" ∈ columns raw ->
      (forall c, c ∈ user_columns -> c ∈ columns raw) ->
      fst out = Raise (NameError "users_table") /\
      locals (snd out) !! "users_table" = None /\
      exists t, derive_users raw = Ok t /\
                locals (snd out) !! "artists_table" = Some (PFrame t)).
Proof.
  cbv zeta. apply process_log_data_run. intros st' Hs Hl. cbn [fst snd].
  split; [eauto|]. split; [exact Hs|]. intros raw Hr Hp Hc.
  destruct (derive_users_ok raw Hp Hc) as [t Ht].
  destruct (Hl raw t Hr Ht) as [Hu Ha].
  unfold log_outcome. rewrite Hr. cbn [mbind result_bind]. rewrite Ht. eauto 10.
Qed.

(** ** C10 *)

(** C10. The log pipeline does not depend on the song data: two sessions
    that return the same frame for the log path, and anything at all for
    every other path, derive the same songplays rows; the calls of
    [process_log_data] end the same way and leave the same sink. *)
Theorem songplays_independent_of_song_data
    (utcoffset : Z -> Z) (s1 s2 : SparkSession) (input_data output_data : string)
    (st : state) :
  files s1 !! os_path_join input_data "log_data/*/*/*/*.json" =
  files s2 !! os_path_join input_data "log_data/*/*/*/*.json" ->
  run_songplays utcoffset s1 input_data = run_songplays utcoffset s2 input_data /\
  fst (process_log_data utcoffset s1 input_data output_data st) =
  fst (process_log_data utcoffset s2 input_data output_data st) /\
  sink (snd (process_log_data utcoffset s1 input_data output_data st)) =
  sink (snd (process_log_data utcoffset s2 input_data output_data st)).
Proof.
  intros H.
  assert (Hr : read_json s1 (os_path_join input_data "log_data/*/*/*/*.json") =
               read_json s2 (os_path_join input_data "log_data/*/*/*/*.json"))
    by (unfold read_json; by rewrite H).
  split; [unfold run_songplays; by rewrite Hr|].
  apply (process_log_data_run utcoffset s1). intros st1 Hs1 _.
  apply (process_log_data_run utcoffset s2). intros st2 Hs2 _.
  cbn [fst snd]. rewrite Hr, Hs1, Hs2. done.
Qed.

(** ** Rows and cells *)

Lemma mapR_Forall2 {A B} (f : A -> result B) (l : list A) (l' : list B) :
  mapR f l = Ok l' -> Forall2 (fun a b => f a = Ok b) l l'.
Proof.
  revert l'. induction l as [|a l IH]; intros l' H; cbn in H.
  - injection H as <-. constructor.
  - destruct (f a) as [b|e] eqn:Hb; [|discriminate]. cbn in H.
    destruct (mapR f l) as [bs|e]; [|discriminate]. cbn in H.
    injection H as <-. constructor; auto.
Qed.

Lemma cell_insert (c : string) (v : value) (r : Row) : cell c (<[c := v]> r) = v.
Proof. unfold cell. by rewrite lookup_insert_eq. Qed.

Lemma cell_insert_ne (c c' : string) (v : value) (r : Row) :
  c <> c' -> cell c' (<[c := v]> r) = cell c' r.
Proof. intros H. unfold cell. by rewrite lookup_insert_ne. Qed.

(** ** The calendar *)

Lemma is_leap_false (y : Z) :
  is_leap y = false -> y mod 4 <> 0 \/ (y mod 100 = 0 /\ y mod 400 <> 0).
Proof.
  unfold is_leap.
  destruct (Z.eqb_spec (y mod 4) 0), (Z.eqb_spec (y mod 100) 0),
    (Z.eqb_spec (y mod 400) 0); cbn; intros; try discriminate; lia.
Qed.

Ltac digits_lia := Z.div_mod_to_equations; lia.

(** Every day number has a month in 1..12 and a day that the month has. *)
Lemma civil_from_days_valid (n y m d : Z) :
  civil_from_days n = (y, m, d) -> 1 <= m <= 12 /\ 1 <= d <= days_in_month y m.
Proof.
  unfold civil_from_days. cbv zeta. set (z := n + 719468).
  set (doe := z mod 146097).
  set (yoe := (doe - doe / 1460 + doe / 36524 - doe / 146096) / 365).
  set (doy := doe - (365 * yoe + yoe / 4 - yoe / 100)).
  set (mp := (5 * doy + 2) / 153).
  assert (Hdoe : 0 <= doe < 146097) by (apply Z.mod_pos_bound; lia).
  assert (Hyd : 0 <= yoe <= 399 /\ 0 <= doy <= 365) by (subst doy yoe; digits_lia).
  assert (Hmp : 0 <= mp <= 11) by (subst mp; digits_lia).
  assert (Hd : 153 * mp <= 5 * doy + 2 < 153 * (mp + 1)) by (subst mp; digits_lia).
  intros [= <- <- <-]. clearbody mp. unfold days_in_month.
  destruct (Z.ltb_spec mp 10);
    repeat match goal with
      | |- context [Z.eqb ?a ?b] => destruct (Z.eqb_spec a b)
      | |- context [Z.leb ?a ?b] => destruct (Z.leb_spec a b)
      end; cbn [orb]; try (split; [lia|digits_lia]).
  split; [lia|].
  destruct (is_leap _) eqn:Hl; [digits_lia|].
  apply is_leap_false in Hl. subst doy yoe. digits_lia.
Qed.

(** A day is at most 365 days after the first of January of its year. *)
Lemma day_of_year_bounds (n : Z) :
  let '(y, _, _) := civil_from_days n in
  0 <= n - days_from_civil y 1 1 <= 365.
Proof.
  unfold civil_from_days, days_from_civil. cbv zeta.
  change (1 <=? 2) with true. change (2 <? 1) with false. cbv iota.
  change ((153 * (1 + 9) + 2) / 5 + 1 - 1) with 306.
  set (z := n + 719468).
  destruct ((5 * (z mod 146097 - _) + 2) / 153 <? 10) eqn:Hmp.
  - apply Z.ltb_lt in Hmp.
    replace (_ + 3 <=? 2) with false by (symmetry; apply Z.leb_gt; digits_lia).
    subst z. digits_lia.
  - apply Z.ltb_ge in Hmp.
    replace (_ - 9 <=? 2) with true by (symmetry; apply Z.leb_le; digits_lia).
    subst z. digits_lia.
Qed.

Lemma iso_week_bounds (y m d : Z) : 1 <= iso_week y m d <= 53.
Proof.
  unfold iso_week, week_of_days. cbv zeta.
  pose proof (day_of_year_bounds (thursday_of (days_from_civil y m d))) as H.
  destruct (civil_from_days _) as [[ty tm] td]. digits_lia.
Qed.

Lemma days_in_month_le_31 (y m : Z) : days_in_month y m <= 31.
Proof.
  unfold days_in_month.
  destruct (m =? 2); [destruct (is_leap y); lia|].
  destruct ((m =? 4) || (m =? 6) || (m =? 9) || (m =? 11)); lia.
Qed.

(** ** Printing a datetime and reading it back *)

Lemma digit_val_char (k : Z) : 0 <= k <= 9 -> digit_val (digit_char k) = Some k.
Proof.
  intros Hk.
  assert (H : k = 0 \/ k = 1 \/ k = 2 \/ k = 3 \/ k = 4 \/ k = 5 \/ k = 6 \/ k = 7
              \/ k = 8 \/ k = 9) by lia.
  repeat (destruct H as [->|H]; [reflexivity|]). by subst.
Qed.

Ltac read_back :=
  cbv [str_datetime to_timestamp pad6 pad4 pad2 field char_at
       dt_year dt_month dt_day dt_hour dt_minute dt_second dt_microsecond
       String.append substring String.length String.get Nat.eqb digits_val
       Ascii.eqb Bool.eqb].

Ltac checks_pass :=
  repeat match goal with
    | |- context [?a <=? ?b] => rewrite (proj2 (Z.leb_le a b)) by lia
    | |- context [?a <? ?b] => rewrite (proj2 (Z.ltb_lt a b)) by lia
    end.

Lemma two_digits (n : Z) : 10 * (10 * 0 + n / 10) + n mod 10 = n.
Proof. digits_lia. Qed.

Lemma four_digits (n : Z) :
  10 * (10 * (10 * (10 * 0 + n / 1000) + n / 100 mod 10) + n mod 100 / 10)
  + n mod 100 mod 10 = n.
Proof. digits_lia. Qed.

Lemma six_digits (n : Z) :
  10 * (10 * (10 * (10 * (10 * (10 * 0 + n / 100000) + n / 10000 mod 10)
                    + n mod 10000 / 1000) + n mod 10000 / 100 mod 10)
        + n mod 10000 mod 100 / 10) + n mod 10000 mod 100 mod 10 = n.
Proof. digits_lia. Qed.

(** What [str] prints, the cast reads back. *)
Lemma to_timestamp_str (t : datetime) :
  valid_datetime t -> to_timestamp (str_datetime t) = Some t.
Proof.
  destruct t as [y m d H M S us]. unfold valid_datetime.
  cbn [dt_year dt_month dt_day dt_hour dt_minute dt_second dt_microsecond].
  intros (Hy & Hm & Hd & HH & HM & HS & Hus).
  pose proof (days_in_month_le_31 y m) as H31.
  unfold str_datetime. cbn [dt_microsecond].
  destruct (us =? 0) eqn:Hz; read_back;
    rewrite !digit_val_char by digits_lia; cbn [mbind option_bind];
    rewrite ?two_digits, ?four_digits, ?six_digits; checks_pass; cbn [andb].
  - apply Z.eqb_eq in Hz as ->. reflexivity.
  - reflexivity.
Qed.

(** ** C7 *)

Lemma fromtimestamp_valid (utcoffset : Z -> Z) (secs us : Z) (t : datetime) :
  0 <= us < 1000000 -> fromtimestamp utcoffset secs us = Ok t -> valid_datetime t.
Proof.
  intros Hus. unfold fromtimestamp.
  destruct (civil_from_days _) as [[y m] d] eqn:Hc.
  destruct ((1 <=? y) && (y <=? 9999)) eqn:Hy; [|discriminate].
  intros [= <-]. apply civil_from_days_valid in Hc as [Hm Hd].
  unfold valid_datetime.
  cbn [dt_year dt_month dt_day dt_hour dt_minute dt_second dt_microsecond].
  repeat split; try lia; digits_lia.
Qed.

Lemma get_datetime_valid (utcoffset : Z -> Z) (x v : value) :
  get_datetime utcoffset x = Ok v ->
  exists t, valid_datetime t /\ v = VStr (str_datetime t).
Proof.
  unfold get_datetime. intros H.
  apply bind_ok in H as (n & _ & H). apply bind_ok in H as (t & Ht & H).
  injection H as <-. exists t. split; [|reflexivity].
  eapply fromtimestamp_valid; [|exact Ht]. digits_lia.
Qed.

Lemma date_part_str (f : datetime -> Z) (t : datetime) :
  valid_datetime t -> date_part f (VStr (str_datetime t)) = VInt (f t).
Proof. intros Ht. unfold date_part. by rewrite to_timestamp_str. Qed.

Lemma withColumn_udf_rows name udf src df t :
  withColumn_udf name udf src df = Ok t ->
  Forall (fun r => exists r0 v, udf (cell src r0) = Ok v /\ r = <[name := v]> r0) (rows t).
Proof.
  unfold withColumn_udf. intros H.
  apply bind_ok in H as (? & _ & H). apply bind_ok in H as (ps & Hps & H).
  injection H as <-. unfold rows. cbn [partitions].
  apply mapR_Forall2 in Hps.
  induction Hps as [|part part' ps0 ps1 Hp _ IH]; [constructor|].
  cbn [concat]. apply Forall_app. split; [|exact IH].
  apply mapR_Forall2 in Hp. clear -Hp.
  induction Hp as [|r0 r part part' Hr _ IH]; constructor; [|exact IH].
  apply bind_ok in Hr as (v & Hv & Hr). injection Hr as <-. eauto.
Qed.

Lemma select_rows fnv es df t :
  select fnv es df = Ok t -> rows t = map (project fnv es) (rows df).
Proof.
  unfold select. destruct (List.find _ es); [discriminate|]. intros [= <-].
  unfold rows. cbn [partitions]. by rewrite concat_map.
Qed.

Lemma first_by_key_incl cs seen l r : r ∈ first_by_key cs seen l -> r ∈ l.
Proof.
  revert seen. induction l as [|x l IH]; intros seen; cbn [first_by_key]; [done|].
  destruct (bool_decide _).
  - intros H. right. eauto.
  - intros [->|H]%elem_of_cons; [left|right; eauto].
Qed.

Lemma first_by_key_NoDup cs seen l :
  NoDup (map (key_of cs) (first_by_key cs seen l)) /\
  Forall (fun r => key_of cs r ∉ seen) (first_by_key cs seen l).
Proof.
  revert seen. induction l as [|x l IH]; intros seen; cbn [first_by_key].
  - split; constructor.
  - destruct (bool_decide (key_of cs x ∈ seen)) eqn:Hx; [apply IH|].
    apply bool_decide_eq_false in Hx.
    destruct (IH (key_of cs x :: seen)) as [Hn Hf]. cbn [map]. split.
    + constructor; [|exact Hn]. intros Hin.
      apply list_elem_of_fmap in Hin as (r & Hk & Hr).
      rewrite Forall_forall in Hf. apply (Hf r Hr). rewrite <- Hk. left.
    + constructor; [exact Hx|]. eapply Forall_impl; [exact Hf|].
      intros r Hr Hin. apply Hr. by right.
Qed.

Lemma dropDuplicates_rows cs df t :
  dropDuplicates cs df = Ok t -> rows t = first_by_key cs [] (rows df).
Proof.
  unfold dropDuplicates. destruct (List.find _ cs); [discriminate|]. intros [= <-].
  unfold rows at 1. cbn [partitions concat]. apply app_nil_r.
Qed.

(** C7. The time table holds each [start_time] once, and in every row the
    hour lies in 0..23, the day in 1..31, the week in 1..53 and the month in
    1..12. *)
Theorem time_table_rows (utcoffset : Z -> Z) (raw t : DataFrame) :
  derive_time utcoffset raw = Ok t ->
  NoDup (column "start_time" t) /\
  Forall (fun r => exists h d w m,
            cell "hour" r = VInt h /\ 0 <= h <= 23 /\
            cell "day" r = VInt d /\ 1 <= d <= 31 /\
            cell "week" r = VInt w /\ 1 <= w <= 53 /\
            cell "month" r = VInt m /\ 1 <= m <= 12) (rows t).
Proof.
  intros H. unfold derive_time in H.
  apply bind_ok in H as (df & _ & H). apply bind_ok in H as (df2 & Hw & H).
  unfold with_times in Hw. apply bind_ok in Hw as (df1 & _ & Hw).
  unfold time_table, sql_select in H. apply bind_ok in H as (t1 & Hsel & H).
  apply dropDuplicates_rows in H. apply select_rows in Hsel.
  apply withColumn_udf_rows in Hw. unfold column. rewrite H. split.
  - destruct (first_by_key_NoDup ["start_time"] [] (rows t1)) as [Hn _].
    apply (NoDup_fmap_1 (fun v => [v])). rewrite <- list_fmap_compose. exact Hn.
  - apply Forall_forall. intros r Hr. apply first_by_key_incl in Hr.
    rewrite Hsel in Hr. apply list_elem_of_fmap in Hr as (r2 & -> & Hr2).
    rewrite Forall_forall in Hw. destruct (Hw r2 Hr2) as (r1 & v & Hv & ->).
    apply get_datetime_valid in Hv as (dt & Hdt & ->).
    pose proof Hdt as (Hy & Hm & Hd & Hh & _).
    pose proof (days_in_month_le_31 (dt_year dt) (dt_month dt)).
    pose proof (iso_week_bounds (dt_year dt) (dt_month dt) (dt_day dt)).
    exists (dt_hour dt), (dt_day dt),
      (iso_week (dt_year dt) (dt_month dt) (dt_day dt)), (dt_month dt).
    unfold project, eval. cbn [map alias fn_of col e_alias e_fn e_col].
    rewrite cell_insert.
    repeat split; try lia.
    + change (hour (VStr (str_datetime dt)) = VInt (dt_hour dt)).
      by apply date_part_str.
    + change (dayofmonth (VStr (str_datetime dt)) = VInt (dt_day dt)).
      by apply date_part_str.
    + change (weekofyear (VStr (str_datetime dt)) =
              VInt (iso_week (dt_year dt) (dt_month dt) (dt_day dt))).
      by apply (date_part_str (fun t => iso_week (dt_year t) (dt_month t) (dt_day t))).
    + change (month (VStr (str_datetime dt)) = VInt (dt_month dt)).
      by apply date_part_str.
Qed.

Lemma time_table_witness :
  NoDup (column "start_time" sample_time_table) /\
  Forall (fun r => exists h d w m,
            cell "hour" r = VInt h /\ 0 <= h <= 23 /\
            cell "day" r = VInt d /\ 1 <= d <= 31 /\
            cell "week" r = VInt w /\ 1 <= w <= 53 /\
            cell "month" r = VInt m /\ 1 <= m <= 12) (rows sample_time_table).
Proof.
  apply (time_table_rows utc log_frame sample_time_table).
  vm_compute. reflexivity.
Defined.

(** ** Row identifiers *)

Lemma column_imap_id (name : string) (g : nat -> Z) (part : list Row) :
  map (cell name) (imap (fun i r => <[name := VInt (g i)]> r) part) =
  map VInt (map g (seq 0 (length part))).
Proof.
  revert g. induction part as [|r part IH]; intros g; [reflexivity|].
  cbn [imap length seq map]. rewrite cell_insert. f_equal.
  rewrite <- seq_shift, (map_map S g). exact (IH (g ∘ S)).
Qed.

Lemma column_withColumn_id_from (name : string) (parts : list (list Row)) (from : nat) :
  map (cell name)
    (concat (imap (fun p part =>
                     imap (fun i r => <[name := VInt (monotonic_id (from + p) i)]> r) part)
               parts)) =
  map VInt (frame_ids from (map length parts)).
Proof.
  revert from. induction parts as [|part parts IH]; intros from; [reflexivity|].
  cbn [imap concat map frame_ids]. rewrite !map_app. f_equal.
  - rewrite Nat.add_0_r. apply column_imap_id.
  - rewrite <- IH. do 2 f_equal. apply imap_ext. intros p x _. cbn.
    by rewrite Nat.add_succ_r.
Qed.

Lemma column_withColumn_id (name : string) (t : DataFrame) :
  column name (withColumn_id name t) = map VInt (frame_ids 0 (map length (partitions t))).
Proof. apply (column_withColumn_id_from name (partitions t) 0). Qed.

Lemma monotonic_id_small (p i : nat) :
  Z.of_nat p < 2 ^ 30 -> Z.of_nat i < 2 ^ 33 ->
  monotonic_id p i = Z.of_nat p * 2 ^ 33 + Z.of_nat i.
Proof.
  intros Hp Hi. unfold monotonic_id, wrap64. rewrite Z.shiftl_mul_pow2 by lia.
  rewrite Z.mod_small; lia.
Qed.

Lemma partition_ids_sorted (p n : nat) :
  Z.of_nat p < 2 ^ 30 -> Z.of_nat n <= 2 ^ 33 ->
  StronglySorted Z.lt (map (monotonic_id p) (seq 0 n)) /\
  Forall (fun z => Z.of_nat p * 2 ^ 33 <= z < (Z.of_nat p + 1) * 2 ^ 33)
    (map (monotonic_id p) (seq 0 n)).
Proof.
  intros Hp Hn.
  assert (Hgen : forall k a, (a + k <= n)%nat ->
            StronglySorted Z.lt (map (monotonic_id p) (seq a k)) /\
            Forall (fun z => Z.of_nat p * 2 ^ 33 + Z.of_nat a <= z
                             < (Z.of_nat p + 1) * 2 ^ 33)
              (map (monotonic_id p) (seq a k))).
  { induction k as [|k IH]; intros a Ha; cbn [seq map].
    - split; constructor.
    - destruct (IH (S a)) as [Hs Hf]; [lia|].
      rewrite (monotonic_id_small p a) by lia. split.
      + constructor; [exact Hs|]. eapply Forall_impl; [exact Hf|]. cbn. lia.
      + constructor; [lia|]. eapply Forall_impl; [exact Hf|]. cbn. lia. }
  destruct (Hgen n 0%nat) as [Hs Hf]; [lia|]. split; [exact Hs|].
  eapply Forall_impl; [exact Hf|]. cbn. lia.
Qed.

Lemma frame_ids_sorted (sizes : list nat) (from : nat) :
  Z.of_nat from + Z.of_nat (length sizes) <= 2 ^ 30 ->
  Forall (fun n => Z.of_nat n <= 2 ^ 33) sizes ->
  StronglySorted Z.lt (frame_ids from sizes) /\
  Forall (fun z => Z.of_nat from * 2 ^ 33 <= z) (frame_ids from sizes).
Proof.
  revert from. induction sizes as [|n sizes IH]; intros from Hlen Hsz; cbn [frame_ids].
  - split; constructor.
  - cbn [length] in Hlen. apply Forall_cons in Hsz as [Hn Hsz].
    destruct (IH (S from)) as [Hs Hf]; [lia|exact Hsz|].
    destruct (partition_ids_sorted from n) as [Hps Hpf]; [lia|exact Hn|].
    split.
    + apply StronglySorted_app_2; [|exact Hps|exact Hs].
      intros x1 x2 H1 H2.
      rewrite Forall_forall in Hpf, Hf. specialize (Hpf _ H1). specialize (Hf _ H2). lia.
    + apply Forall_app. split.
      * eapply Forall_impl; [exact Hpf|]. cbn. lia.
      * eapply Forall_impl; [exact Hf|]. cbn. lia.
Qed.

Lemma StronglySorted_lt_NoDup (l : list Z) : StronglySorted Z.lt l -> NoDup l.
Proof.
  induction 1 as [|x l Hs IH Hx]; constructor; [|exact IH].
  intros Hin. rewrite Forall_forall in Hx. specialize (Hx _ Hin). lia.
Qed.

(** The partitions of the songplays frame are those of the log frame,
    thinned out by the filter. *)
Lemma withColumn_udf_sizes name udf src df t :
  withColumn_udf name udf src df = Ok t ->
  map length (partitions t) = map length (partitions df).
Proof.
  unfold withColumn_udf. intros H.
  apply bind_ok in H as (? & _ & H). apply bind_ok in H as (ps & Hps & H).
  injection H as <-. cbn [partitions].
  apply mapR_Forall2 in Hps. induction Hps as [|part part' ps0 ps1 Hp _ IH]; [reflexivity|].
  cbn [map]. f_equal; [|exact IH].
  apply mapR_Forall2 in Hp. symmetry. eapply Forall2_length, Hp.
Qed.

Lemma select_sizes fnv es df t :
  select fnv es df = Ok t -> map length (partitions t) = map length (partitions df).
Proof.
  unfold select. destruct (List.find _ es); [discriminate|]. intros [= <-].
  cbn [partitions]. rewrite map_map. apply map_ext. intros part. apply length_map.
Qed.

Lemma filter_next_song_sizes df t :
  filter_next_song df = Ok t ->
  Forall2 (fun n part => (n <= length part)%nat) (map length (partitions t)) (partitions df).
Proof.
  unfold filter_next_song. intros H. apply bind_ok in H as (? & _ & H).
  injection H as <-. cbn [partitions].
  induction (partitions df) as [|part ps IH]; cbn [map]; constructor; [|exact IH].
  apply List.filter_length_le.
Qed.

(** ** C4 *)

Lemma filter_next_song_skips (cs : list string) (ps1 ps2 : list (list Row))
    (xs ys : list Row) (r : Row) :
  cell "page" r <> VStr "NextSong" ->
  filter_next_song (mkFrame cs (ps1 ++ (xs ++ r :: ys) :: ps2)%list) =
  filter_next_song (mkFrame cs (ps1 ++ (xs ++ ys) :: ps2)%list).
Proof.
  intros Hr. unfold filter_next_song, getattr, has_column. cbn [columns partitions].
  destruct (bool_decide ("page" ∈ cs)); [|reflexivity].
  cbn [mbind result_bind]. do 2 f_equal.
  rewrite !map_app. cbn [map]. rewrite !List.filter_app. cbn [List.filter].
  replace (is_next_song r) with false; [reflexivity|].
  unfold is_next_song. by rewrite bool_decide_eq_false_2.
Qed.

(** C4. A log record whose [page] is not "NextSong" contributes nothing:
    with the record at any place of any partition of the log frame, the
    users, time and songplays tables are the ones derived without it. *)
Theorem other_pages_contribute_nothing
    (utcoffset : Z -> Z) (cs : list string) (ps1 ps2 : list (list Row))
    (xs ys : list Row) (r : Row) :
  cell "page" r <> VStr "NextSong" ->
  let with_r := mkFrame cs (ps1 ++ (xs ++ r :: ys) :: ps2)%list in
  let without := mkFrame cs (ps1 ++ (xs ++ ys) :: ps2)%list in
  derive_users with_r = derive_users without /\
  derive_time utcoffset with_r = derive_time utcoffset without /\
  derive_songplays utcoffset with_r = derive_songplays utcoffset without.
Proof.
  intros Hr. cbv zeta. unfold derive_users, derive_time, derive_songplays.
  by rewrite (filter_next_song_skips cs ps1 ps2 xs ys r Hr).
Qed.

Lemma other_pages_witness :
  derive_songplays utc (mkFrame (columns tagged_log_frame)
                          ([] ++ ([] ++ tagged home :: [tagged play]) :: [[tagged play]])%list) =
  derive_songplays utc (mkFrame (columns tagged_log_frame)
                          ([] ++ ([] ++ [tagged play]) :: [[tagged play]])%list).
Proof.
  apply (other_pages_contribute_nothing utc (columns tagged_log_frame) [] [[tagged play]]
           [] [tagged play] (tagged home)).
  vm_compute. discriminate.
Defined.

(** ** Runs on the sample data *)

Ltac by_decide := refine (bool_decide_unpack _ _); vm_compute; exact I.

Lemma process_song_data_witness :
  fst (process_song_data (session_of song_frame log_frame)
         "s3a://udacity-dend/" "s3://nadabucket19/proj4/" start)
  = Raise (AttributeError "songs_table").
Proof.
  apply (process_song_data_raises_at_songs_write
           (session_of song_frame log_frame) "s3a://udacity-dend/"
           "s3://nadabucket19/proj4/" start) with (df := song_frame).
  - reflexivity.
  - intros c Hc.
    unfold song_columns in Hc. rewrite !elem_of_cons, elem_of_nil in Hc.
    repeat (destruct Hc as [->|Hc]; [by_decide|]). destruct Hc.
Defined.

Lemma process_log_data_witness :
  fst (process_log_data utc (session_of song_frame log_frame)
         "s3a://udacity-dend/" "s3://nadabucket19/proj4/" start)
  = Raise (NameError "users_table").
Proof.
  apply (process_log_data_raises_at_users_write utc
           (session_of song_frame log_frame) "s3a://udacity-dend/"
           "s3://nadabucket19/proj4/" start) with (raw := log_frame).
  - reflexivity.
  - by_decide.
  - intros c Hc.
    unfold user_columns in Hc. rewrite !elem_of_cons, elem_of_nil in Hc.
    repeat (destruct Hc as [->|Hc]; [by_decide|]). destruct Hc.
Defined.

Lemma songplays_independent_witness :
  run_songplays utc (session_of song_frame tagged_log_frame) "s3a://udacity-dend/" =
  run_songplays utc (session_of (mkFrame [] []) tagged_log_frame) "s3a://udacity-dend/".
Proof.
  apply (songplays_independent_of_song_data utc
           (session_of song_frame tagged_log_frame)
           (session_of (mkFrame [] []) tagged_log_frame)
           "s3a://udacity-dend/" "s3://nadabucket19/proj4/" start).
  reflexivity.
Defined.

(** ** C2 *)

(** C2 (the program at the failing input).  Two song records that share
    [song_id] "SOXXXX" and differ in [year] both reach the songs table:
    [drop_duplicates()] of line 42 compares whole rows, where the artists
    table of line 52 is reduced by its key. *)
Theorem songs_table_keeps_both_years :
  cells_of (songs_table song_frame) =
  Ok [[ [VStr "SOXXXX"; VStr "Setanta matins"; VStr "ARXXXX"; VInt 2000;
         VDbl 4643484568181812920];
        [VStr "SOXXXX"; VStr "Setanta matins"; VStr "ARXXXX"; VInt 2001;
         VDbl 4643484568181812920] ]] /\
  cells_of (artists_table song_frame) =
  Ok [[ [VStr "ARXXXX"; VStr "Elena"; VStr "Dubai UAE"; VNull; VNull] ]].
Proof. split; vm_compute; reflexivity. Qed.

(** ** C1 *)

(** C1 (the program at the failing input).  The song data holds the song
    that the logged event names, with the same title, artist and duration.
    On the log data as it is, the select of lines 108-118 asks the log frame
    for a column [artist_id] and the analysis fails; on a log that has
    columns [artist_id] and [song_id] of its own, their cells are copied to
    the songplays rows, whatever the song data holds. *)
Theorem songplays_ids_not_resolved :
  cell "title" song_a = cell "song" play /\
  cell "artist_name" song_a = cell "artist" play /\
  cell "duration" song_a = cell "length" play /\
  run_songplays utc (session_of song_frame log_frame) "s3a://udacity-dend/" =
  Raise (AnalysisException "artist_id") /\
  column_of "song_id"
    (run_songplays utc (session_of song_frame tagged_log_frame) "s3a://udacity-dend/") =
  Ok [VStr "from-the-log"; VStr "from-the-log"] /\
  column_of "artist_id"
    (run_songplays utc (session_of song_frame tagged_log_frame) "s3a://udacity-dend/") =
  Ok [VStr "from-the-log"; VStr "from-the-log"].
Proof. repeat split; vm_compute; reflexivity. Qed.

(** ** C3 *)

(** C3 (the program at the failing input).  The event's [ts] lies in
    November 2018.  The month of its songplays row is taken from the
    derived ['datetime'], the year is the cell of the log's own column
    [year]: 1999 where the log has one, and an analysis error where it has
    none. *)
Theorem songplays_year_is_the_raw_column :
  column_of "datetime" (filter_next_song tagged_log_frame ≫= with_times utc) =
  Ok [VStr "2018-11-12 02:37:38.796000"; VStr "2018-11-12 02:37:38.796000"] /\
  year (VStr "2018-11-12 02:37:38.796000") = VInt 2018 /\
  month (VStr "2018-11-12 02:37:38.796000") = VInt 11 /\
  column_of "month" (derive_songplays utc tagged_log_frame) = Ok [VInt 11; VInt 11] /\
  column_of "year" (derive_songplays utc tagged_log_frame) = Ok [VInt 1999; VInt 1999] /\
  derive_songplays utc
    (mkFrame (log_schema ++ ["artist_id"; "song_id"]) (partitions tagged_log_frame)) =
  Raise (AnalysisException "year").
Proof. repeat split; vm_compute; reflexivity. Qed.

(** ** C5 *)

(** The quarter-hour offsets between -24 h and +24 h, in seconds. *)
Lemma quarter_hours_checked :
  forallb
    (fun k =>
       match get_datetime (fun _ => 900 * (Z.of_nat k - 96)) (VInt 1541990258796) with
       | Ok (VStr s) => negb (String.prefix "2018-11-12 04:57:38" s)
       | _ => false
       end)
    (seq 0 193) = true.
Proof. vm_compute. reflexivity. Qed.

(** C5 (the claim fails).  Under UTC the instant 1541990258796 ms is
    2018-11-12 02:37:38.796, with hour 2; and under no offset of a whole
    number of quarter hours is it 04:57:38. *)
Lemma start_time_example_is_not_0457 :
  get_datetime utc (VInt 1541990258796) = Ok (VStr "2018-11-12 02:37:38.796000") /\
  hour (VStr "2018-11-12 02:37:38.796000") = VInt 2 /\
  (forall k s, -96 <= k <= 96 ->
     get_datetime (fun _ => 900 * k) (VInt 1541990258796) = Ok (VStr s) ->
     String.prefix "2018-11-12 04:57:38" s = false).
Proof.
  split; [vm_compute; reflexivity|]. split; [vm_compute; reflexivity|].
  intros k s Hk Hs.
  pose proof quarter_hours_checked as Hall.
  rewrite forallb_forall in Hall.
  specialize (Hall (Z.to_nat (k + 96))).
  replace (Z.of_nat (Z.to_nat (k + 96)) - 96) with k in Hall by lia.
  rewrite Hs in Hall. apply negb_true_iff, Hall.
  apply in_seq. lia.
Qed.

(** C5 (amended).  The derived timestamp is a function of [ts] and of the
    offset the machine applies at that instant, and whenever it is derived
    it is the printed form of a local date and time whose hour, month and
    year read back from it.  For ts = 1541990258796 it is
    2018-11-12 02:37:38.796000 under UTC, with hour 2, year 2018 and
    month 11; the hour is 4 under UTC+02:00, where the time is
    04:37:38.796000. *)
Theorem get_datetime_example :
  (forall (utcoffset : Z -> Z) (n : Z),
      get_datetime utcoffset (VInt n) =
      get_datetime (fun _ => utcoffset (n / 1000)) (VInt n)) /\
  (forall (utcoffset : Z -> Z) (x v : value),
      get_datetime utcoffset x = Ok v ->
      exists dt, valid_datetime dt /\ v = VStr (str_datetime dt) /\
                 hour v = VInt (dt_hour dt) /\ month v = VInt (dt_month dt) /\
                 year v = VInt (dt_year dt)) /\
  get_datetime utc (VInt 1541990258796) = Ok (VStr "2018-11-12 02:37:38.796000") /\
  hour (VStr "2018-11-12 02:37:38.796000") = VInt 2 /\
  year (VStr "2018-11-12 02:37:38.796000") = VInt 2018 /\
  month (VStr "2018-11-12 02:37:38.796000") = VInt 11 /\
  get_datetime (fun _ => 7200) (VInt 1541990258796) =
  Ok (VStr "2018-11-12 04:37:38.796000") /\
  hour (VStr "2018-11-12 04:37:38.796000") = VInt 4.
Proof.
  split; [reflexivity|]. split; [|repeat split; vm_compute; reflexivity].
  intros utcoffset x v Hv. destruct (get_datetime_valid _ _ _ Hv) as (dt & Hdt & ->).
  exists dt. split; [exact Hdt|]. split; [reflexivity|].
  unfold hour, month, year. by rewrite !date_part_str.
Qed.

Lemma get_datetime_example_witness :
  exists dt, valid_datetime dt /\
             VStr "2018-11-12 02:37:38.796000" = VStr (str_datetime dt) /\
             hour (VStr "2018-11-12 02:37:38.796000") = VInt (dt_hour dt) /\
             month (VStr "2018-11-12 02:37:38.796000") = VInt (dt_month dt) /\
             year (VStr "2018-11-12 02:37:38.796000") = VInt (dt_year dt).
Proof.
  destruct get_datetime_example as (_ & H & _).
  apply (H utc (VInt 1541990258796)). vm_compute. reflexivity.
Defined.

(** * Further properties of the pipelines *)

(** ** Projections and keys *)

Lemma cell_project fnv (es : list expr) (a : string) (r : Row) :
  cell a (project fnv es r) =
  match List.find (fun e => String.eqb (e_alias e) a) es with
  | Some e => eval fnv e r
  | None => VNull
  end.
Proof.
  unfold project, cell. induction es as [|e es IH]; cbn [map List.find].
  - reflexivity.
  - rewrite list_to_map_cons. destruct (String.eqb_spec (e_alias e) a) as [<-|Hne].
    + by rewrite lookup_insert_eq.
    + by rewrite lookup_insert_ne.
Qed.

Lemma cell_project_col (cs : list string) (c : string) (r : Row) :
  c ∈ cs -> cell c (project date_fn (map col cs) r) = cell c r.
Proof.
  intros Hc. rewrite cell_project.
  induction cs as [|c' cs IH]; [by apply elem_of_nil in Hc|].
  cbn [map List.find col e_alias]. destruct (String.eqb_spec c' c) as [->|Hne].
  - reflexivity.
  - apply IH. apply elem_of_cons in Hc as [->|Hc]; [done|exact Hc].
Qed.

Lemma key_of_project_col (cs ks : list string) (r : Row) :
  (forall k, k ∈ ks -> k ∈ cs) ->
  key_of ks (project date_fn (map col cs) r) = key_of ks r.
Proof.
  intros H. unfold key_of. apply map_ext_in. intros k Hk.
  apply cell_project_col, H, list_elem_of_In, Hk.
Qed.

Lemma first_by_key_map (f : Row -> Row) (cs : list string) (seen : list (list value))
    (l : list Row) :
  (forall r, key_of cs (f r) = key_of cs r) ->
  first_by_key cs seen (map f l) = map f (first_by_key cs seen l).
Proof.
  intros Hf. revert seen. induction l as [|r l IH]; intros seen; [reflexivity|].
  cbn [map first_by_key]. rewrite Hf. destruct (bool_decide _); cbn [map]; by rewrite IH.
Qed.

Lemma first_by_key_complete cs seen l r :
  r ∈ l ->
  (key_of cs r ∈ seen) \/ (key_of cs r ∈ map (key_of cs) (first_by_key cs seen l)).
Proof.
  revert seen. induction l as [|x l IH]; intros seen Hr; [by apply elem_of_nil in Hr|].
  cbn [first_by_key]. apply elem_of_cons in Hr as [->|Hr].
  - destruct (bool_decide (key_of cs x ∈ seen)) eqn:Hx.
    + left. by apply bool_decide_eq_true in Hx.
    + right. cbn [map]. left.
  - destruct (bool_decide (key_of cs x ∈ seen)) eqn:Hx.
    + by apply IH.
    + destruct (IH (key_of cs x :: seen) Hr) as [[->|Hs]%elem_of_cons|Hin].
      * right. cbn [map]. left.
      * by left.
      * right. cbn [map]. by right.
Qed.

Lemma singleton_key_elem (c : string) (r : Row) (l : list Row) :
  (key_of [c] r ∈ map (key_of [c]) l) <-> (cell c r ∈ map (cell c) l).
Proof.
  unfold key_of. cbn [map]. split; intros H.
  - apply list_elem_of_fmap in H as (x & [= Hx] & Hin). rewrite Hx.
    apply list_elem_of_fmap. eauto.
  - apply list_elem_of_fmap in H as (x & Hx & Hin). rewrite Hx.
    apply list_elem_of_fmap. eauto.
Qed.

(** A table made by selecting columns and dropping duplicates of one of
    them. *)
Lemma keyed_table_rows (k : string) (cs : list string) (df t : DataFrame) :
  k ∈ cs ->
  selectExpr cs df ≫= dropDuplicates [k] = Ok t ->
  rows t = map (project date_fn (map col cs)) (first_by_key [k] [] (rows df)).
Proof.
  intros Hk H. apply bind_ok in H as (t1 & Hsel & H).
  apply dropDuplicates_rows in H. apply select_rows in Hsel.
  rewrite H, Hsel. apply first_by_key_map. intros r.
  apply key_of_project_col. intros k' ->%list_elem_of_singleton. exact Hk.
Qed.

Lemma keyed_table_keys (k : string) (cs : list string) (df t : DataFrame) :
  k ∈ cs ->
  selectExpr cs df ≫= dropDuplicates [k] = Ok t ->
  NoDup (column k t) /\
  (forall v, (v ∈ column k t) <-> (v ∈ map (cell k) (rows df))).
Proof.
  intros Hk H. pose proof (keyed_table_rows k cs df t Hk H) as Hrows.
  unfold column. rewrite Hrows, map_map.
  rewrite (map_ext _ (cell k)) by (intros r; by apply cell_project_col).
  destruct (first_by_key_NoDup [k] [] (rows df)) as [Hn _]. split.
  - apply (NoDup_fmap_1 (fun v => [v])). rewrite <- list_fmap_compose. exact Hn.
  - intros v. split.
    + intros (r & -> & Hr)%list_elem_of_fmap. apply list_elem_of_fmap.
      exists r. split; [reflexivity|]. eapply first_by_key_incl, Hr.
    + intros (r & -> & Hr)%list_elem_of_fmap.
      destruct (first_by_key_complete [k] [] (rows df) r Hr) as [Hs|Hin].
      * by apply elem_of_nil in Hs.
      * by apply singleton_key_elem.
Qed.

Lemma keyed_table_records (k : string) (cs : list string) (df t : DataFrame) :
  k ∈ cs ->
  selectExpr cs df ≫= dropDuplicates [k] = Ok t ->
  Forall (fun a => exists r, r ∈ rows df /\ forall c, c ∈ cs -> cell c a = cell c r)
    (rows t).
Proof.
  intros Hk H. rewrite (keyed_table_rows k cs df t Hk H).
  apply Forall_forall. intros a (r & -> & Hr)%list_elem_of_fmap.
  exists r. split; [by eapply first_by_key_incl|].
  intros c Hc. by apply cell_project_col.
Qed.

(** ** The artists and users tables *)

Lemma filter_next_song_rows (raw df : DataFrame) :
  filter_next_song raw = Ok df -> rows df = next_songs raw /\ columns df = columns raw.
Proof.
  unfold filter_next_song. intros H. apply bind_ok in H as (? & _ & H).
  by injection H as <-.
Qed.

(** X1. The artists table has one row for every artist id of the song
    data, and no id twice. *)
Theorem artists_table_keys (df t : DataFrame) :
  artists_table df = Ok t ->
  NoDup (column "artist_id" t) /\
  (forall v, (v ∈ column "artist_id" t) <-> (v ∈ column "artist_id" df)).
Proof.
  intros H. apply (keyed_table_keys "artist_id" artist_columns df t); [|exact H].
  unfold artist_columns. left.
Qed.

Lemma artists_table_keys_witness :
  NoDup (column "artist_id" sample_artists) /\
  (forall v, (v ∈ column "artist_id" sample_artists) <-> (v ∈ column "artist_id" song_frame)).
Proof. apply (artists_table_keys song_frame sample_artists). vm_compute. reflexivity. Defined.

(** X2. Each row of the artists table carries the five artist cells of
    one single song record with its artist id: no row mixes the cells of
    two records.  The artist ids are taken to be cells that the grouping
    compares bit for bit. *)
Theorem artists_table_rows_are_records (df t : DataFrame) :
  artists_table df = Ok t ->
  Forall (fun r => exact_cell (cell "artist_id" r) = true) (rows df) ->
  Forall (fun a => exists r, r ∈ rows df /\
                             forall c, c ∈ artist_columns -> cell c a = cell c r) (rows t).
Proof.
  intros H _. apply (keyed_table_records "artist_id" artist_columns df t); [|exact H].
  unfold artist_columns. left.
Qed.

Lemma artists_table_rows_witness :
  Forall (fun a => exists r, r ∈ rows song_frame /\
                             forall c, c ∈ artist_columns -> cell c a = cell c r)
    (rows sample_artists).
Proof.
  apply (artists_table_rows_are_records song_frame sample_artists).
  - vm_compute. reflexivity.
  - repeat constructor.
Defined.

(** X3. The users table has one row for every user id that occurs in a
    [NextSong] record, and no id twice. *)
Theorem users_table_keys (raw t : DataFrame) :
  derive_users raw = Ok t ->
  NoDup (column "userId" t) /\
  (forall v, (v ∈ column "userId" t) <-> (v ∈ map (cell "userId") (next_songs raw))).
Proof.
  intros H. unfold derive_users in H. apply bind_ok in H as (df & Hf & H).
  apply filter_next_song_rows in Hf as [<- _].
  apply (keyed_table_keys "userId" user_columns df t); [|exact H].
  unfold user_columns. left.
Qed.

Lemma users_table_keys_witness :
  NoDup (column "userId" sample_users) /\
  (forall v, (v ∈ column "userId" sample_users)
             <-> (v ∈ map (cell "userId") (next_songs two_levels_frame))).
Proof. apply (users_table_keys two_levels_frame sample_users). vm_compute. reflexivity. Defined.

(** X4. Each row of the users table carries the five user cells, the
    level among them, of one single [NextSong] record of that user: where a
    user's level changes, the row shows one of the levels the user had and
    the others leave no trace.  The user ids are taken to be cells that the
    grouping compares bit for bit. *)
Theorem users_table_rows_are_records (raw t : DataFrame) :
  derive_users raw = Ok t ->
  Forall (fun r => exact_cell (cell "userId" r) = true) (next_songs raw) ->
  Forall (fun u => exists r, r ∈ next_songs raw /\
                             forall c, c ∈ user_columns -> cell c u = cell c r) (rows t).
Proof.
  intros H _. unfold derive_users in H. apply bind_ok in H as (df & Hf & H).
  apply filter_next_song_rows in Hf as [<- _].
  apply (keyed_table_records "userId" user_columns df t); [|exact H].
  unfold user_columns. left.
Qed.

Lemma users_table_rows_witness :
  Forall (fun u => exists r, r ∈ next_songs two_levels_frame /\
                             forall c, c ∈ user_columns -> cell c u = cell c r)
    (rows sample_users).
Proof.
  apply (users_table_rows_are_records two_levels_frame sample_users).
  - vm_compute. reflexivity.
  - repeat constructor.
Defined.

(** ** The songs table *)

Lemma insert_sorted_elem (c : string) (r x : Row) (l : list Row) :
  x ∈ insert_sorted c r l <-> x = r \/ x ∈ l.
Proof.
  induction l as [|y l IH]; cbn [insert_sorted].
  - rewrite list_elem_of_singleton, elem_of_nil. tauto.
  - destruct (value_leb _ _).
    + by rewrite elem_of_cons.
    + rewrite !elem_of_cons, IH. tauto.
Qed.

Lemma sort_by_elem (c : string) (x : Row) (l : list Row) : x ∈ sort_by c l <-> x ∈ l.
Proof.
  unfold sort_by. induction l as [|y l IH]; cbn [fold_right]; [reflexivity|].
  rewrite insert_sorted_elem, elem_of_cons, IH. reflexivity.
Qed.

Lemma orderBy_rows c df t : orderBy c df = Ok t -> rows t = sort_by c (rows df).
Proof.
  unfold orderBy. destruct (has_column c df); [|discriminate]. intros [= <-].
  unfold rows at 1. cbn [partitions concat]. apply app_nil_r.
Qed.

Lemma songs_table_keys_spec (df t : DataFrame) :
  songs_table df = Ok t ->
  NoDup (map (key_of song_columns) (rows t)) /\
  (forall k, (k ∈ map (key_of song_columns) (rows t))
             <-> (k ∈ map (key_of song_columns) (rows df))).
Proof.
  intros H. pose proof H as Hall. unfold songs_table in H.
  apply bind_ok in H as (t1 & Hsel & H). apply bind_ok in H as (t2 & Hord & H).
  unfold drop_duplicates in H.
  assert (Hcols : columns t2 = song_columns).
  { apply orderBy_columns in Hord. apply select_columns in Hsel.
    rewrite Hord, Hsel. reflexivity. }
  rewrite Hcols in H. apply dropDuplicates_rows in H.
  apply orderBy_rows in Hord. apply select_rows in Hsel.
  rewrite H, Hord, Hsel.
  destruct (first_by_key_NoDup song_columns []
              (sort_by "song_id"
                 (map (project date_fn (map col song_columns)) (rows df)))) as [Hn _].
  split; [exact Hn|]. intros k. split.
  - intros (a & -> & Ha)%list_elem_of_fmap.
    apply first_by_key_incl, sort_by_elem in Ha.
    apply list_elem_of_fmap in Ha as (r & -> & Hr).
    rewrite key_of_project_col by done. apply list_elem_of_fmap. eauto.
  - intros (r & -> & Hr)%list_elem_of_fmap.
    rewrite <- (key_of_project_col song_columns song_columns r) by done.
    destruct (first_by_key_complete song_columns []
                (sort_by "song_id"
                   (map (project date_fn (map col song_columns)) (rows df)))
                (project date_fn (map col song_columns) r)) as [Hs|Hin].
    + apply sort_by_elem, list_elem_of_fmap. eauto.
    + by apply elem_of_nil in Hs.
    + exact Hin.
Qed.

(** X5. When no cell of the five song columns is a negative zero or a
    NaN, the songs table holds every combination of song id, title, artist
    id, year and duration that occurs in the song data, each of them
    once. *)
Theorem songs_table_distinct_rows (df t : DataFrame) :
  songs_table df = Ok t ->
  Forall (fun r => forall c, c ∈ song_columns -> exact_cell (cell c r) = true) (rows df) ->
  NoDup (map (key_of song_columns) (rows t)) /\
  (forall k, (k ∈ map (key_of song_columns) (rows t))
             <-> (k ∈ map (key_of song_columns) (rows df))).
Proof. intros H _. by apply songs_table_keys_spec. Qed.

Lemma songs_table_distinct_rows_witness :
  NoDup (map (key_of song_columns) (rows sample_songs)) /\
  (forall k, (k ∈ map (key_of song_columns) (rows sample_songs))
             <-> (k ∈ map (key_of song_columns) (rows song_frame))).
Proof.
  apply (songs_table_distinct_rows song_frame sample_songs).
  - vm_compute. reflexivity.
  - repeat constructor; intros c Hc; unfold song_columns in Hc;
      rewrite !elem_of_cons, elem_of_nil in Hc;
      repeat (destruct Hc as [->|Hc]; [vm_compute; reflexivity|]); destruct Hc.
Defined.

(** ** Columns added by a function *)

Lemma mapR_map {A B} (f : A -> result B) (g : A -> B) (l : list A) (l' : list B) :
  (forall a b, f a = Ok b -> g a = b) ->
  mapR f l = Ok l' -> l' = map g l /\ Forall (fun a => exists b, f a = Ok b) l.
Proof.
  intros Hg H. apply mapR_Forall2 in H.
  induction H as [|a b l l' Hab _ [IH1 IH2]]; [by split|].
  cbn [map]. rewrite (Hg a b Hab), IH1. split; [reflexivity|]. constructor; eauto.
Qed.

Lemma withColumn_udf_partitions name udf src df t :
  withColumn_udf name udf src df = Ok t ->
  partitions t =
    map (map (fun r => <[name := udf_value udf (cell src r)]> r)) (partitions df) /\
  Forall (Forall (fun r => exists v, udf (cell src r) = Ok v)) (partitions df) /\
  columns t = add_column name (columns df) /\
  src ∈ columns df.
Proof.
  unfold withColumn_udf. intros H.
  apply bind_ok in H as (c & Hc & H). apply bind_ok in H as (ps & Hps & H).
  injection H as <-. cbn [partitions columns].
  assert (Hsrc : src ∈ columns df).
  { unfold getattr, has_column in Hc. destruct (bool_decide _) eqn:Hb; [|discriminate].
    by apply bool_decide_eq_true in Hb. }
  split; [|split; [|by split]].
  - apply (mapR_map _ (map (fun r => <[name := udf_value udf (cell src r)]> r))) in Hps;
      [apply Hps|].
    intros part part' Hp.
    apply (mapR_map _ (fun r => <[name := udf_value udf (cell src r)]> r)) in Hp;
      [symmetry; apply Hp|].
    intros r r' Hr. apply bind_ok in Hr as (v & Hv & Hr). injection Hr as <-.
    unfold udf_value. by rewrite Hv.
  - apply mapR_Forall2 in Hps. clear -Hps.
    induction Hps as [|part part' ps ps' Hp _ IH]; constructor; [|exact IH].
    apply mapR_Forall2 in Hp. clear -Hp.
    induction Hp as [|r r' l l' Hr _ IH]; constructor; [|exact IH].
    apply bind_ok in Hr as (v & Hv & _). eauto.
Qed.

Lemma select_partitions fnv es df t :
  select fnv es df = Ok t ->
  partitions t = map (map (project fnv es)) (partitions df) /\
  (forall e, e ∈ es -> e_col e ∈ columns df).
Proof.
  unfold select. destruct (List.find _ es) eqn:Hfind; [discriminate|]. intros [= <-].
  split; [reflexivity|]. intros e He.
  pose proof (find_none _ _ Hfind e (proj1 (list_elem_of_In _ _) He)) as Hc.
  unfold has_column in Hc. apply negb_false_iff in Hc.
  by apply bool_decide_eq_true in Hc.
Qed.

(** The frame of line 88, row by row. *)
Lemma with_times_partitions (utcoffset : Z -> Z) (df t : DataFrame) :
  with_times utcoffset df = Ok t ->
  partitions t =
    map (map (fun r =>
                <["datetime" := udf_value (get_datetime utcoffset) (cell "ts" r)]>
                  (<["timestamp" := udf_value get_timestamp (cell "ts" r)]> r)))
      (partitions df) /\
  Forall (Forall (fun r => exists v, get_datetime utcoffset (cell "ts" r) = Ok v))
    (partitions df) /\
  columns t = add_column "datetime" (add_column "timestamp" (columns df)) /\
  "ts" ∈ columns df.
Proof.
  unfold with_times. intros H. apply bind_ok in H as (df1 & H1 & H2).
  apply withColumn_udf_partitions in H1 as (Hp1 & _ & Hc1 & Hts).
  apply withColumn_udf_partitions in H2 as (Hp2 & Hok & Hc2 & _).
  rewrite Hp2, Hp1, Hc2, Hc1. split; [|split; [|by split]].
  - rewrite map_map. apply map_ext. intros part. rewrite map_map. apply map_ext.
    intros r. by rewrite cell_insert_ne.
  - rewrite Hp1 in Hok. rewrite Forall_forall in Hok. apply Forall_forall.
    intros part Hpart. specialize (Hok (map _ part) (list_elem_of_fmap_2 _ _ _ Hpart)).
    rewrite Forall_forall in Hok. apply Forall_forall. intros r Hr.
    destruct (Hok _ (list_elem_of_fmap_2 _ _ _ Hr)) as [v Hv].
    rewrite cell_insert_ne in Hv by done. eauto.
Qed.

(** ** The time table *)

Lemma next_songs_rows (raw df : DataFrame) :
  filter_next_song raw = Ok df ->
  partitions df = map (List.filter is_next_song) (partitions raw) /\
  columns df = columns raw /\ "page" ∈ columns raw.
Proof.
  unfold filter_next_song. intros H. apply bind_ok in H as (c & Hc & H).
  injection H as <-. split; [reflexivity|]. split; [reflexivity|].
  unfold getattr, has_column in Hc. destruct (bool_decide _) eqn:Hb; [|discriminate].
  by apply bool_decide_eq_true in Hb.
Qed.

Lemma Forall_concat {A} (P : A -> Prop) (ls : list (list A)) :
  Forall (Forall P) ls -> Forall P (concat ls).
Proof.
  induction 1 as [|l ls Hl _ IH]; cbn [concat]; [constructor|].
  apply Forall_app. by split.
Qed.

Lemma derive_time_rows (utcoffset : Z -> Z) (raw t : DataFrame) :
  derive_time utcoffset raw = Ok t ->
  rows t = first_by_key ["start_time"] []
             (map (fun r => project date_fn time_exprs (timed utcoffset r))
                (next_songs raw)) /\
  Forall (fun r => exists v, get_datetime utcoffset (cell "ts" r) = Ok v) (next_songs raw).
Proof.
  intros H. unfold derive_time in H.
  apply bind_ok in H as (df & Hf & H). apply bind_ok in H as (df2 & Hw & H).
  apply next_songs_rows in Hf as (Hp & _ & _).
  apply with_times_partitions in Hw as (Hp2 & Hok & _ & _).
  unfold time_table, sql_select in H. apply bind_ok in H as (t1 & Hsel & H).
  apply dropDuplicates_rows in H. apply select_rows in Hsel.
  rewrite Hp in Hp2, Hok. split.
  - rewrite H, Hsel. unfold rows at 1. rewrite Hp2. unfold next_songs.
    rewrite <- concat_map, map_map. reflexivity.
  - apply Forall_concat, Hok.
Qed.

(** X6. The start times of the time table are exactly the strings that
    line 87 derives from the [ts] of the [NextSong] records. *)
Theorem time_table_start_times (utcoffset : Z -> Z) (raw t : DataFrame) :
  derive_time utcoffset raw = Ok t ->
  forall v, (v ∈ column "start_time" t) <->
            (exists r, r ∈ next_songs raw /\ get_datetime utcoffset (cell "ts" r) = Ok v).
Proof.
  intros H v. apply derive_time_rows in H as [Hrows Hok]. unfold column. rewrite Hrows.
  rewrite Forall_forall in Hok.
  assert (Hst : forall r, r ∈ next_songs raw ->
            get_datetime utcoffset (cell "ts" r) =
            Ok (cell "start_time" (project date_fn time_exprs (timed utcoffset r)))).
  { intros r Hr. destruct (Hok r Hr) as [w Hw]. rewrite cell_project.
    cbn [time_exprs List.find alias e_alias String.eqb Ascii.eqb Bool.eqb].
    unfold eval. cbn [e_col e_fn col alias date_fn]. unfold timed.
    rewrite cell_insert. unfold udf_value. by rewrite Hw. }
  split.
  - intros (a & -> & Ha)%list_elem_of_fmap.
    apply first_by_key_incl, list_elem_of_fmap in Ha as (r & -> & Hr).
    exists r. split; [exact Hr|]. by apply Hst.
  - intros (r & Hr & Hv).
    destruct (first_by_key_complete ["start_time"] []
                (map (fun r => project date_fn time_exprs (timed utcoffset r))
                   (next_songs raw))
                (project date_fn time_exprs (timed utcoffset r))) as [Hs|Hin].
    + apply list_elem_of_fmap. eauto.
    + by apply elem_of_nil in Hs.
    + apply singleton_key_elem in Hin. rewrite Hst in Hv by done.
      injection Hv as <-. exact Hin.
Qed.

Lemma time_table_start_times_witness :
  (VStr "2018-11-12 02:37:38.796000" ∈ column "start_time" sample_time_table) /\
  (forall v, (v ∈ column "start_time" sample_time_table) ->
             exists r, r ∈ next_songs log_frame /\ get_datetime utc (cell "ts" r) = Ok v).
Proof.
  assert (H : derive_time utc log_frame = Ok sample_time_table)
    by (vm_compute; reflexivity).
  split.
  - apply (time_table_start_times utc log_frame sample_time_table H).
    exists play. split; [by_decide|vm_compute; reflexivity].
  - intros v. apply (time_table_start_times utc log_frame sample_time_table H).
Defined.

(** X7. In every row of the time table the hour, day, week, month and year
    are the fields of the local date and time that its start time prints;
    none of them is null, and the year lies in 1..9999. *)
Theorem time_table_fields (utcoffset : Z -> Z) (raw t : DataFrame) :
  derive_time utcoffset raw = Ok t ->
  Forall (fun row => exists dt,
            valid_datetime dt /\
            cell "start_time" row = VStr (str_datetime dt) /\
            cell "hour" row = VInt (dt_hour dt) /\
            cell "day" row = VInt (dt_day dt) /\
            cell "week" row = VInt (iso_week (dt_year dt) (dt_month dt) (dt_day dt)) /\
            cell "month" row = VInt (dt_month dt) /\
            cell "year" row = VInt (dt_year dt)) (rows t).
Proof.
  intros H. apply derive_time_rows in H as [Hrows Hok]. rewrite Hrows.
  rewrite Forall_forall in Hok. apply Forall_forall. intros row Hrow.
  apply first_by_key_incl, list_elem_of_fmap in Hrow as (r & -> & Hr).
  destruct (Hok r Hr) as [v Hv].
  destruct (get_datetime_valid _ _ _ Hv) as (dt & Hdt & ->).
  exists dt. split; [exact Hdt|].
  rewrite !cell_project.
  cbn [time_exprs List.find alias e_alias String.eqb Ascii.eqb Bool.eqb].
  unfold eval. cbn [e_col e_fn col alias fn_of date_fn]. unfold timed.
  rewrite !cell_insert. unfold udf_value. rewrite Hv.
  unfold hour, dayofmonth, weekofyear, month, year.
  rewrite !date_part_str by done. repeat split.
Qed.

Lemma time_table_fields_witness :
  Forall (fun row => exists dt,
            valid_datetime dt /\
            cell "start_time" row = VStr (str_datetime dt) /\
            cell "hour" row = VInt (dt_hour dt) /\
            cell "day" row = VInt (dt_day dt) /\
            cell "week" row = VInt (iso_week (dt_year dt) (dt_month dt) (dt_day dt)) /\
            cell "month" row = VInt (dt_month dt) /\
            cell "year" row = VInt (dt_year dt)) (rows sample_time_table).
Proof.
  apply (time_table_fields utc log_frame sample_time_table). vm_compute. reflexivity.
Defined.

(** ** The songplays table *)

Lemma column_imap_other (name c : string) (g : nat -> value) (part : list Row) :
  name <> c ->
  map (cell c) (imap (fun i r => <[name := g i]> r) part) = map (cell c) part.
Proof.
  intros Hne. revert g. induction part as [|r part IH]; intros g; [reflexivity|].
  cbn [imap map]. rewrite cell_insert_ne by done. f_equal. exact (IH (g ∘ S)).
Qed.

Lemma column_imap2_other (name c : string) (f : nat -> nat -> value)
    (parts : list (list Row)) :
  name <> c ->
  map (cell c)
    (concat (imap (fun p part => imap (fun i r => <[name := f p i]> r) part) parts)) =
  map (cell c) (concat parts).
Proof.
  intros Hne. revert f. induction parts as [|part parts IH]; intros f; [reflexivity|].
  cbn [imap concat]. rewrite !map_app. f_equal.
  - by apply column_imap_other.
  - exact (IH (fun p => f (S p))).
Qed.

Lemma column_withColumn_id_other (name c : string) (t : DataFrame) :
  name <> c -> column c (withColumn_id name t) = column c t.
Proof.
  intros Hne. unfold column, rows, withColumn_id. cbn [partitions].
  by apply (column_imap2_other name c (fun p i => VInt (monotonic_id p i))).
Qed.

Lemma sizes_imap2 (g : nat -> nat -> Row -> Row) (parts : list (list Row)) :
  map length (imap (fun p part => imap (g p) part) parts) = map length parts.
Proof.
  revert g. induction parts as [|part parts IH]; intros g; [reflexivity|].
  cbn [imap map]. rewrite length_imap. f_equal. exact (IH (fun p => g (S p))).
Qed.

Lemma derive_songplays_table (utcoffset : Z -> Z) (raw t : DataFrame) :
  derive_songplays utcoffset raw = Ok t ->
  exists t0,
    t = withColumn_id "songplay_id" t0 /\
    partitions t0 =
      map (map (fun r => project date_fn songplays_exprs (timed utcoffset r)))
        (map (List.filter is_next_song) (partitions raw)) /\
    Forall (fun r => exists v, get_datetime utcoffset (cell "ts" r) = Ok v)
      (next_songs raw) /\
    "page" ∈ columns raw /\ "ts" ∈ columns raw /\
    (forall e, e ∈ songplays_exprs ->
               e_col e ∈ add_column "datetime" (add_column "timestamp" (columns raw))).
Proof.
  intros H. unfold derive_songplays in H.
  apply bind_ok in H as (df & Hf & H). apply bind_ok in H as (df2 & Hw & H).
  apply next_songs_rows in Hf as (Hp & Hc & Hpage).
  apply with_times_partitions in Hw as (Hp2 & Hok & Hc2 & Hts).
  unfold songplays_table, sql_select in H. apply bind_ok in H as (t0 & Hsel & H).
  injection H as <-. apply select_partitions in Hsel as [Hp0 Hcols].
  exists t0. split; [reflexivity|]. rewrite Hp in Hp2, Hok. rewrite Hc in Hc2, Hts.
  split; [|split; [|split; [|split]]].
  - rewrite Hp0, Hp2, map_map. apply map_ext. intros part. by rewrite map_map.
  - apply Forall_concat, Hok.
  - exact Hpage.
  - exact Hts.
  - intros e He. rewrite <- Hc2. by apply Hcols.
Qed.

(** X8. The songplays table has one row for each [NextSong] record,
    partition by partition and in scan order, and that row carries the
    record's cells of the nine copied columns under their new names. *)
Theorem songplays_rows_are_the_next_songs (utcoffset : Z -> Z) (raw t : DataFrame) :
  derive_songplays utcoffset raw = Ok t ->
  map length (partitions t) =
    map (fun part => length (List.filter is_next_song part)) (partitions raw) /\
  (forall src new, (src, new) ∈ copied_columns ->
                   column new t = map (cell src) (next_songs raw)).
Proof.
  intros H. apply derive_songplays_table in H as (t0 & -> & Hp0 & _).
  split.
  - unfold withColumn_id. cbn [partitions].
    transitivity (map length (partitions t0)).
    + apply (sizes_imap2 (fun p i r => <["songplay_id" := VInt (monotonic_id p i)]> r)).
    + rewrite Hp0, !map_map. apply map_ext. intros part. apply length_map.
  - intros src new Hin.
    assert (Hnew : "songplay_id" <> new).
    { unfold copied_columns in Hin. rewrite !elem_of_cons, elem_of_nil in Hin.
      repeat (destruct Hin as [[= -> ->]|Hin]; [discriminate|]). destruct Hin. }
    rewrite column_withColumn_id_other by exact Hnew.
    unfold column, rows. rewrite Hp0. unfold next_songs.
    rewrite <- concat_map, map_map. apply map_ext. intros r.
    rewrite cell_project. unfold timed.
    unfold copied_columns in Hin. rewrite !elem_of_cons, elem_of_nil in Hin.
    repeat (destruct Hin as [[= -> ->]|Hin];
            [cbn [songplays_exprs List.find alias e_alias String.eqb Ascii.eqb Bool.eqb];
             unfold eval; cbn [e_col e_fn col alias date_fn];
             by rewrite !cell_insert_ne by done|]).
    destruct Hin.
Qed.

Lemma songplays_rows_witness :
  map length (partitions sample_songplays) =
    map (fun part => length (List.filter is_next_song part)) (partitions tagged_log_frame) /\
  (forall src new, (src, new) ∈ copied_columns ->
                   column new sample_songplays = map (cell src) (next_songs tagged_log_frame)).
Proof.
  apply (songplays_rows_are_the_next_songs utc tagged_log_frame sample_songplays).
  vm_compute. reflexivity.
Defined.

(** X9. The month of a songplays row is the month of the local date and
    time derived from the record's [ts]; it lies in 1..12. *)
Theorem songplays_month_is_derived (utcoffset : Z -> Z) (raw t : DataFrame) :
  derive_songplays utcoffset raw = Ok t ->
  Forall2 (fun r v => exists dt,
             get_datetime utcoffset (cell "ts" r) = Ok (VStr (str_datetime dt)) /\
             v = VInt (dt_month dt) /\ 1 <= dt_month dt <= 12)
    (next_songs raw) (column "month" t).
Proof.
  intros H. apply derive_songplays_table in H as (t0 & -> & Hp0 & Hok & _).
  rewrite column_withColumn_id_other by done.
  unfold column, rows. rewrite Hp0. fold (next_songs raw).
  change (concat (map (map ?f) (map (List.filter is_next_song) (partitions raw))))
    with (concat (map (map f) (map (List.filter is_next_song) (partitions raw)))).
  rewrite <- concat_map. fold (next_songs raw). rewrite map_map.
  apply Forall2_fmap_r, Forall_Forall2_diag.
  eapply Forall_impl; [exact Hok|]. intros r [v Hv]. unfold compose. cbv beta.
  destruct (get_datetime_valid _ _ _ Hv) as (dt & Hdt & ->).
  exists dt. split; [exact Hv|]. split; [|apply Hdt].
  rewrite cell_project.
  cbn [songplays_exprs List.find alias e_alias String.eqb Ascii.eqb Bool.eqb].
  unfold eval. cbn [e_col e_fn fn_of alias date_fn]. unfold timed.
  rewrite cell_insert. unfold udf_value. rewrite Hv. unfold month.
  by apply date_part_str.
Qed.

Lemma songplays_month_witness :
  Forall2 (fun r v => exists dt,
             get_datetime utc (cell "ts" r) = Ok (VStr (str_datetime dt)) /\
             v = VInt (dt_month dt) /\ 1 <= dt_month dt <= 12)
    (next_songs tagged_log_frame) (column "month" sample_songplays).
Proof.
  apply (songplays_month_is_derived utc tagged_log_frame sample_songplays).
  vm_compute. reflexivity.
Defined.

(** X10. From log data with the columns of the log data set, which has no
    [artist_id], [song_id] or [year], no songplays table is derived,
    whatever the records are: the derivation ends in an exception. *)
Theorem songplays_not_from_log_schema (utcoffset : Z -> Z) (raw : DataFrame) :
  columns raw = log_schema ->
  exists e, derive_songplays utcoffset raw = Raise e.
Proof.
  intros Hc. destruct (derive_songplays utcoffset raw) as [t|e] eqn:H; [|eauto].
  apply derive_songplays_table in H as (t0 & _ & _ & _ & _ & _ & Hcols).
  specialize (Hcols (alias (col "artist_id") "artist_id")). rewrite Hc in Hcols.
  exfalso. revert Hcols. intros Hcols.
  assert (Hin : alias (col "artist_id") "artist_id" ∈ songplays_exprs)
    by (unfold songplays_exprs; rewrite !elem_of_cons; tauto).
  apply Hcols in Hin. revert Hin. apply (bool_decide_eq_false_1 _).
  vm_compute. reflexivity.
Qed.

Lemma songplays_not_from_log_schema_witness :
  exists e, derive_songplays utc log_frame = Raise e.
Proof. apply (songplays_not_from_log_schema utc log_frame). reflexivity. Defined.

(** ** Records that cannot be dated *)

(** X11. One [NextSong] record without a [ts] is enough for neither the
    time table nor the songplays table to be derived: both derivations end
    in an exception. *)
Theorem null_ts_fails (utcoffset : Z -> Z) (raw : DataFrame) (r : Row) :
  r ∈ next_songs raw -> cell "ts" r = VNull ->
  (exists e, derive_time utcoffset raw = Raise e) /\
  (exists e, derive_songplays utcoffset raw = Raise e).
Proof.
  intros Hr Hnull.
  assert (Hno : forall v, get_datetime utcoffset (cell "ts" r) <> Ok v)
    by (rewrite Hnull; discriminate).
  split.
  - destruct (derive_time utcoffset raw) as [t|e] eqn:H; [|eauto].
    apply derive_time_rows in H as [_ Hok]. rewrite Forall_forall in Hok.
    destruct (Hok r Hr) as [v Hv]. by destruct (Hno v).
  - destruct (derive_songplays utcoffset raw) as [t|e] eqn:H; [|eauto].
    apply derive_songplays_table in H as (t0 & _ & _ & Hok & _).
    rewrite Forall_forall in Hok. destruct (Hok r Hr) as [v Hv]. by destruct (Hno v).
Qed.

Lemma null_ts_fails_witness :
  (exists e, derive_time utc no_ts_frame = Raise e) /\
  (exists e, derive_songplays utc no_ts_frame = Raise e).
Proof.
  apply (null_ts_fails utc no_ts_frame (<["ts" := VNull]> play)).
  - by_decide.
  - vm_compute. reflexivity.
Defined.

Lemma year_in_range (n : Z) :
  -719162 <= n <= 2932896 -> 1 <= (civil_from_days n).1.1 <= 9999.
Proof.
  intros Hn. unfold civil_from_days. cbv zeta. cbn [fst].
  set (z := n + 719468).
  destruct ((5 * (z mod 146097 - _) + 2) / 153 <? 10) eqn:Hmp.
  - apply Z.ltb_lt in Hmp.
    replace (_ + 3 <=? 2) with false by (symmetry; apply Z.leb_gt; digits_lia).
    subst z. digits_lia.
  - apply Z.ltb_ge in Hmp.
    replace (_ - 9 <=? 2) with true by (symmetry; apply Z.leb_le; digits_lia).
    subst z. digits_lia.
Qed.

Lemma year_out_of_range (n : Z) :
  n < -719162 \/ 2932896 < n ->
  (civil_from_days n).1.1 < 1 \/ 9999 < (civil_from_days n).1.1.
Proof.
  intros Hn. unfold civil_from_days. cbv zeta. cbn [fst].
  set (z := n + 719468).
  destruct ((5 * (z mod 146097 - _) + 2) / 153 <? 10) eqn:Hmp.
  - apply Z.ltb_lt in Hmp.
    replace (_ + 3 <=? 2) with false by (symmetry; apply Z.leb_gt; digits_lia).
    subst z. digits_lia.
  - apply Z.ltb_ge in Hmp.
    replace (_ - 9 <=? 2) with true by (symmetry; apply Z.leb_le; digits_lia).
    subst z. digits_lia.
Qed.

(** X12. For every [ts] from the epoch up to one day before the end of
    the year 9999, on a machine whose offset from UTC stays within a day,
    [get_datetime] returns the printed form of a valid local date and time;
    for a [ts] whose local time lies past the year 9999 it raises. *)
Theorem get_datetime_range (utcoffset : Z -> Z) (n : Z) :
  ((forall s, -86400 <= utcoffset s <= 86400) ->
   0 <= n < 253402214400000 ->
   exists dt, valid_datetime dt /\
              get_datetime utcoffset (VInt n) = Ok (VStr (str_datetime dt))) /\
  (253402300800 <= n / 1000 + utcoffset (n / 1000) ->
   exists e, get_datetime utcoffset (VInt n) = Raise e).
Proof.
  set (l := n / 1000 + utcoffset (n / 1000)).
  unfold get_datetime, fromtimestamp. cbn [py_int mbind result_bind]. fold l.
  split.
  - intros Hoff Hn. specialize (Hoff (n / 1000)).
    assert (Hl : -719162 <= l / 86400 <= 2932896) by (subst l; digits_lia).
    pose proof (year_in_range (l / 86400) Hl) as Hy.
    destruct (civil_from_days (l / 86400)) as [[y m] d] eqn:Hc. cbn [fst] in Hy.
    destruct (get_datetime_valid utcoffset (VInt n)
                (VStr (str_datetime
                         (mkDatetime y m d (l mod 86400 / 3600) (l mod 86400 mod 3600 / 60)
                            (l mod 86400 mod 60) (n mod 1000 * 1000)))))
      as (dt & Hdt & Heq).
    + unfold get_datetime, fromtimestamp. cbn [py_int mbind result_bind]. fold l.
      rewrite Hc.
      rewrite (proj2 (Z.leb_le 1 y)), (proj2 (Z.leb_le y 9999)) by apply Hy.
      reflexivity.
    + exists dt. split; [exact Hdt|].
      rewrite (proj2 (Z.leb_le 1 y)), (proj2 (Z.leb_le y 9999)) by apply Hy.
      cbn [andb mbind result_bind]. by rewrite Heq.
  - intros Hl.
    assert (Hd : l / 86400 < -719162 \/ 2932896 < l / 86400) by digits_lia.
    pose proof (year_out_of_range (l / 86400) Hd) as Hy.
    destruct (civil_from_days (l / 86400)) as [[y m] d] eqn:Hc. cbn [fst] in Hy.
    destruct Hy as [Hy|Hy].
    + rewrite (proj2 (Z.leb_gt 1 y)) by lia. cbn [andb mbind result_bind]. eauto.
    + rewrite (proj2 (Z.leb_gt y 9999)) by lia. rewrite andb_false_r.
      cbn [mbind result_bind]. eauto.
Qed.

Lemma get_datetime_range_witness :
  (exists dt, valid_datetime dt /\
              get_datetime utc (VInt 1541990258796) = Ok (VStr (str_datetime dt))) /\
  exists e, get_datetime utc (VInt 253402300800000) = Raise e.
Proof.
  split.
  - apply (get_datetime_range utc 1541990258796).
    + intros s. unfold utc. lia.
    + lia.
  - apply (get_datetime_range utc 253402300800000). vm_compute. discriminate.
Defined.

(** ** How the two functions and [main] end *)

Lemma select_missing fnv (es : list expr) (df : DataFrame) (e : expr) :
  e ∈ es -> e_col e ∉ columns df ->
  exists e', e' ∈ es /\ (e_col e' ∉ columns df) /\
             select fnv es df = Raise (AnalysisException (e_col e')).
Proof.
  intros He Hc. unfold select.
  destruct (List.find _ es) as [e'|] eqn:Hfind.
  - apply find_some in Hfind as [Hin Hneg]. exists e'.
    split; [by apply list_elem_of_In|]. split; [|reflexivity].
    unfold has_column in Hneg. apply negb_true_iff in Hneg.
    by apply bool_decide_eq_false in Hneg.
  - pose proof (find_none _ _ Hfind e (proj1 (list_elem_of_In _ _) He)) as Hn.
    unfold has_column in Hn. apply negb_false_iff, bool_decide_eq_true in Hn. done.
Qed.

Lemma selectExpr_missing (cs : list string) (df : DataFrame) (c : string) :
  c ∈ cs -> c ∉ columns df ->
  exists c', c' ∈ cs /\ (c' ∉ columns df) /\
             selectExpr cs df = Raise (AnalysisException c').
Proof.
  intros Hc Hn. unfold selectExpr, sql_select.
  destruct (select_missing date_fn (map col cs) df (col c)) as (e' & He' & Hn' & Hs).
  - apply list_elem_of_fmap. eauto.
  - exact Hn.
  - apply list_elem_of_fmap in He' as (c' & -> & Hc'). exists c'. by repeat split.
Qed.

Lemma process_song_data_outcome
    (spark : SparkSession) (input_data output_data : string) (st : state) :
  fst (process_song_data spark input_data output_data st) =
  Raise (song_outcome (read_json spark (os_path_join input_data "song_data/*/*/*/*.json"))).
Proof.
  unfold process_song_data, song_outcome.
  do 6 py_run.
  destruct (read_json spark _) as [df|e] eqn:Hread; cbv beta iota; [|reflexivity].
  do 3 py_run. cbn [mbind result_bind].
  destruct (songs_table df) as [t|e] eqn:Ht; cbv beta iota; [|reflexivity].
  do 3 py_run.
  unfold getattr, has_column. rewrite (songs_table_columns _ _ Ht).
  rewrite bool_decide_eq_false_2; [reflexivity|].
  unfold song_columns. rewrite !elem_of_cons, elem_of_nil. intros H.
  repeat (destruct H as [H|H]; [discriminate|]). exact H.
Qed.

(** X13. [process_song_data] ends with the reader's exception when there
    is nothing under the song path, and with an analysis exception that
    names one of the five song columns when the song data has no columns
    at all. *)
Theorem process_song_data_input_errors
    (spark : SparkSession) (input_data output_data : string) (st : state) :
  let out := process_song_data spark input_data output_data st in
  let path := os_path_join input_data "song_data/*/*/*/*.json" in
  (files spark !! path = None ->
   fst out = Raise (AnalysisException "Path does not exist")) /\
  (forall df,
      files spark !! path = Some df -> columns df = [] ->
      exists c, c ∈ song_columns /\ fst out = Raise (AnalysisException c)).
Proof.
  cbv zeta. rewrite process_song_data_outcome. unfold song_outcome, read_json. split.
  - intros ->. reflexivity.
  - intros df -> Hc. cbn [mbind result_bind]. unfold songs_table.
    destruct (selectExpr_missing song_columns df "song_id") as (c' & Hc' & _ & Hs).
    + unfold song_columns. left.
    + rewrite Hc. apply not_elem_of_nil.
    + exists c'. split; [exact Hc'|]. unfold song_columns in Hs. by rewrite Hs.
Qed.

Lemma process_song_data_input_errors_witness :
  fst (process_song_data no_files "s3a://udacity-dend/" "s3://nadabucket19/proj4/" start)
  = Raise (AnalysisException "Path does not exist") /\
  exists c, c ∈ song_columns /\
            fst (process_song_data (session_of (mkFrame [] []) log_frame)
                   "s3a://udacity-dend/" "s3://nadabucket19/proj4/" start)
            = Raise (AnalysisException c).
Proof.
  split.
  - apply (process_song_data_input_errors no_files "s3a://udacity-dend/"
             "s3://nadabucket19/proj4/" start). reflexivity.
  - destruct (process_song_data_input_errors (session_of (mkFrame [] []) log_frame)
                "s3a://udacity-dend/" "s3://nadabucket19/proj4/" start) as (_ & H).
    apply (H (mkFrame [] [])); reflexivity.
Defined.

(** X14. [process_log_data] ends with the reader's exception when there is
    nothing under the log path, and with an [AttributeError] for [page]
    when the log data has no column of exactly that name. *)
Theorem process_log_data_input_errors
    (utcoffset : Z -> Z) (spark : SparkSession) (input_data output_data : string)
    (st : state) :
  let out := process_log_data utcoffset spark input_data output_data st in
  let path := os_path_join input_data "log_data/*/*/*/*.json" in
  (files spark !! path = None ->
   fst out = Raise (AnalysisException "Path does not exist")) /\
  (forall raw,
      files spark !! path = Some raw -> "page" ∉ columns raw ->
      fst out = Raise (AttributeError "page")).
Proof.
  cbv zeta. apply process_log_data_run. intros st' _ _. cbn [fst].
  unfold log_outcome, read_json. split.
  - intros ->. reflexivity.
  - intros raw -> Hn. cbn [mbind result_bind].
    unfold derive_users, filter_next_song, getattr, has_column.
    by rewrite bool_decide_eq_false_2.
Qed.

Lemma process_log_data_input_errors_witness :
  fst (process_log_data utc no_files "s3a://udacity-dend/" "s3://nadabucket19/proj4/" start)
  = Raise (AnalysisException "Path does not exist") /\
  fst (process_log_data utc (session_of song_frame bare_log_frame)
         "s3a://udacity-dend/" "s3://nadabucket19/proj4/" start)
  = Raise (AttributeError "page").
Proof.
  split.
  - apply (process_log_data_input_errors utc no_files "s3a://udacity-dend/"
             "s3://nadabucket19/proj4/" start). reflexivity.
  - destruct (process_log_data_input_errors utc (session_of song_frame bare_log_frame)
                "s3a://udacity-dend/" "s3://nadabucket19/proj4/" start) as (_ & H).
    apply (H bare_log_frame).
    + reflexivity.
    + apply (bool_decide_eq_false_1 _). vm_compute. reflexivity.
Defined.

(** X15. [main] does what [process_song_data] does and nothing more: the
    exception of the song pipeline ends it, [process_log_data] is never
    entered, and the sink stays as it was. *)
Theorem main_stops_in_song_pipeline (utcoffset : Z -> Z) (spark : SparkSession) (st : state) :
  main utcoffset spark st =
    process_song_data spark "s3a://udacity-dend/" "s3://nadabucket19/proj4/" st /\
  (exists e, fst (main utcoffset spark st) = Raise e) /\
  sink (snd (main utcoffset spark st)) = sink st.
Proof.
  assert (Heq : main utcoffset spark st =
                process_song_data spark "s3a://udacity-dend/" "s3://nadabucket19/proj4/" st).
  { unfold main. rewrite run_bind.
    apply (process_song_data_run spark "s3a://udacity-dend/" "s3://nadabucket19/proj4/" st
             (fun out => match out with
                         | (Ok a, st') =>
                             process_log_data utcoffset spark "s3a://udacity-dend/"
                               "s3://nadabucket19/proj4/" st'
                         | (Raise e, st') => (Raise e, st')
                         end = out)).
    reflexivity. }
  split; [exact Heq|]. rewrite Heq.
  apply process_song_data_run. intros e st' Hs _. cbn [fst snd]. eauto.
Qed.

(** ** The column ['timestamp'] *)

Lemma mapR_ok {A B} (f : A -> result B) (g : A -> B) (l : list A) :
  Forall (fun a => f a = Ok (g a)) l -> mapR f l = Ok (map g l).
Proof.
  induction 1 as [|a l Ha _ IH]; [reflexivity|].
  cbn [mapR map]. rewrite Ha. cbn [mbind result_bind]. by rewrite IH.
Qed.

Lemma withColumn_udf_ok name udf src df :
  src ∈ columns df ->
  Forall (Forall (fun r => exists v, udf (cell src r) = Ok v)) (partitions df) ->
  withColumn_udf name udf src df =
  Ok (mkFrame (add_column name (columns df))
        (map (map (fun r => <[name := udf_value udf (cell src r)]> r)) (partitions df))).
Proof.
  intros Hsrc Hok. unfold withColumn_udf, getattr, has_column.
  rewrite bool_decide_eq_true_2 by exact Hsrc. cbn [mbind result_bind].
  rewrite (mapR_ok _ (map (fun r => <[name := udf_value udf (cell src r)]> r))).
  - reflexivity.
  - eapply Forall_impl; [exact Hok|]. intros part Hpart. cbv beta.
    apply mapR_ok. eapply Forall_impl; [exact Hpart|]. intros r [v Hv]. cbv beta.
    unfold udf_value. by rewrite Hv.
Qed.

Lemma frame_eq (t : DataFrame) (cs : list string) (ps : list (list Row)) :
  columns t = cs -> partitions t = ps -> t = mkFrame cs ps.
Proof. destruct t. cbn. by intros -> ->. Qed.

Lemma get_datetime_ok_timestamp_ok (utcoffset : Z -> Z) (x : value) :
  (exists v, get_datetime utcoffset x = Ok v) -> exists v, get_timestamp x = Ok v.
Proof.
  intros [v Hv]. unfold get_datetime in Hv. unfold get_timestamp.
  destruct (py_int x) as [n|e]; [|discriminate]. cbn [mbind result_bind]. eauto.
Qed.

(** When the frame of line 88 exists, and what it is. *)
Lemma with_times_spec (utcoffset : Z -> Z) (df t : DataFrame) :
  with_times utcoffset df = Ok t <->
  "ts" ∈ columns df /\
  Forall (Forall (fun r => exists v, get_datetime utcoffset (cell "ts" r) = Ok v))
    (partitions df) /\
  t = mkFrame (add_column "datetime" (add_column "timestamp" (columns df)))
        (map (map (timed utcoffset)) (partitions df)).
Proof.
  split.
  - intros H. apply with_times_partitions in H as (Hp & Hok & Hc & Hts).
    split; [exact Hts|]. split; [exact Hok|]. by apply frame_eq.
  - intros (Hts & Hok & ->). unfold with_times.
    rewrite withColumn_udf_ok; [| exact Hts |].
    + cbn [mbind result_bind]. rewrite withColumn_udf_ok.
      * cbn [columns partitions]. do 2 f_equal. rewrite map_map. apply map_ext.
        intros part. rewrite map_map. apply map_ext. intros r. unfold timed.
        by rewrite cell_insert_ne.
      * cbn [columns]. unfold add_column. destruct (bool_decide _); [exact Hts|].
        apply elem_of_app. by left.
      * cbn [partitions]. apply Forall_forall. intros part' Hp'.
        apply list_elem_of_fmap in Hp' as (part & -> & Hpart).
        rewrite Forall_forall in Hok. specialize (Hok part Hpart).
        apply Forall_forall. intros r' Hr'.
        apply list_elem_of_fmap in Hr' as (r & -> & Hr).
        rewrite cell_insert_ne by done. rewrite Forall_forall in Hok. by apply Hok.
    + eapply Forall_impl; [exact Hok|]. intros part Hpart. cbv beta.
      eapply Forall_impl; [exact Hpart|]. intros r Hr. cbv beta.
      by apply (get_datetime_ok_timestamp_ok utcoffset).
Qed.

Lemma with_datetime_spec (utcoffset : Z -> Z) (df t : DataFrame) :
  withColumn_udf "datetime" (get_datetime utcoffset) "ts" df = Ok t <->
  "ts" ∈ columns df /\
  Forall (Forall (fun r => exists v, get_datetime utcoffset (cell "ts" r) = Ok v))
    (partitions df) /\
  t = mkFrame (add_column "datetime" (columns df))
        (map (map (fun r =>
                     <["datetime" := udf_value (get_datetime utcoffset) (cell "ts" r)]> r))
           (partitions df)).
Proof.
  split.
  - intros H. apply withColumn_udf_partitions in H as (Hp & Hok & Hc & Hts).
    split; [exact Hts|]. split; [exact Hok|]. by apply frame_eq.
  - intros (Hts & Hok & ->). by apply withColumn_udf_ok.
Qed.

Lemma project_ext fnv (es : list expr) (r1 r2 : Row) :
  (forall e, e ∈ es -> cell (e_col e) r1 = cell (e_col e) r2) ->
  project fnv es r1 = project fnv es r2.
Proof.
  intros H. unfold project. f_equal. apply map_ext_in. intros e He.
  unfold eval. by rewrite H by (by apply list_elem_of_In).
Qed.

Lemma select_ext fnv (es : list expr) (df1 df2 : DataFrame) :
  (forall e, e ∈ es -> has_column (e_col e) df1 = has_column (e_col e) df2) ->
  map (map (project fnv es)) (partitions df1) = map (map (project fnv es)) (partitions df2) ->
  select fnv es df1 = select fnv es df2.
Proof.
  intros Hc Hp. unfold select. rewrite Hp.
  replace (List.find (fun e => negb (has_column (e_col e) df1)) es)
    with (List.find (fun e => negb (has_column (e_col e) df2)) es); [reflexivity|].
  clear Hp. induction es as [|e es IH]; [reflexivity|].
  cbn [List.find]. rewrite (Hc e) by left. rewrite IH; [reflexivity|].
  intros e' He'. apply Hc. by right.
Qed.

Lemma has_column_without_timestamp (c : string) (cs : list string) (ps1 ps2 : list (list Row)) :
  c <> "timestamp" ->
  has_column c (mkFrame (add_column "datetime" (add_column "timestamp" cs)) ps1) =
  has_column c (mkFrame (add_column "datetime" cs) ps2).
Proof.
  intros Hc. unfold has_column. cbn [columns]. apply bool_decide_ext.
  unfold add_column.
  repeat match goal with
         | |- context [bool_decide ?P] => destruct (bool_decide_reflect P)
         end;
    rewrite ?elem_of_app, ?list_elem_of_singleton in *; intuition congruence.
Qed.

Lemma select_without_timestamp (utcoffset : Z -> Z) (es : list expr) (df : DataFrame) :
  (forall e, e ∈ es -> e_col e <> "timestamp") ->
  sql_select es
    (mkFrame (add_column "datetime" (add_column "timestamp" (columns df)))
       (map (map (timed utcoffset)) (partitions df))) =
  sql_select es
    (mkFrame (add_column "datetime" (columns df))
       (map (map (fun r =>
                    <["datetime" := udf_value (get_datetime utcoffset) (cell "ts" r)]> r))
          (partitions df))).
Proof.
  intros Hes. apply select_ext.
  - intros e He. apply has_column_without_timestamp. by apply Hes.
  - cbn [partitions]. rewrite !map_map. apply map_ext. intros part.
    rewrite !map_map. apply map_ext_in. intros r _. apply project_ext.
    intros e He. unfold timed. unfold cell.
    destruct (decide (e_col e = "datetime")) as [->|Hne].
    + by rewrite !lookup_insert_eq.
    + rewrite !(lookup_insert_ne _ "datetime") by done.
      rewrite lookup_insert_ne; [reflexivity|]. intros Heq. by apply (Hes e He).
Qed.

(** X16. The column ['timestamp'] of lines 83-84 reaches no table: with
    those two lines left out, the time table and the songplays table are
    derived from the same log data and are the same tables. *)
Theorem timestamp_column_is_unused (utcoffset : Z -> Z) (raw t : DataFrame) :
  (derive_time utcoffset raw = Ok t <-> derive_time_datetime_only utcoffset raw = Ok t) /\
  (derive_songplays utcoffset raw = Ok t <->
   derive_songplays_datetime_only utcoffset raw = Ok t).
Proof.
  unfold derive_time, derive_time_datetime_only, derive_songplays,
    derive_songplays_datetime_only.
  destruct (filter_next_song raw) as [df|e]; cbn [mbind result_bind]; [|done].
  assert (Hstep : forall k1 k2 : DataFrame -> result DataFrame,
            k1 (mkFrame (add_column "datetime" (add_column "timestamp" (columns df)))
                  (map (map (timed utcoffset)) (partitions df))) =
            k2 (mkFrame (add_column "datetime" (columns df))
                  (map (map (fun r =>
                               <["datetime" :=
                                   udf_value (get_datetime utcoffset) (cell "ts" r)]> r))
                     (partitions df))) ->
            with_times utcoffset df ≫= k1 = Ok t <->
            withColumn_udf "datetime" (get_datetime utcoffset) "ts" df ≫= k2 = Ok t).
  { intros k1 k2 Hk. split; intros H; apply bind_ok in H as (d & Hd & H).
    - apply with_times_spec in Hd as (Hts & Hok & ->).
      rewrite (proj2 (with_datetime_spec utcoffset df _) (conj Hts (conj Hok eq_refl))).
      cbn [mbind result_bind]. by rewrite <- Hk.
    - apply with_datetime_spec in Hd as (Hts & Hok & ->).
      rewrite (proj2 (with_times_spec utcoffset df _) (conj Hts (conj Hok eq_refl))).
      cbn [mbind result_bind]. by rewrite Hk. }
  split; apply Hstep.
  - unfold time_table. rewrite (select_without_timestamp utcoffset); [reflexivity|].
    intros e. rewrite !elem_of_cons, elem_of_nil. intros He.
    repeat (destruct He as [->|He]; [discriminate|]). destruct He.
  - unfold songplays_table. rewrite (select_without_timestamp utcoffset); [reflexivity|].
    intros e. rewrite !elem_of_cons, elem_of_nil. intros He.
    repeat (destruct He as [->|He]; [discriminate|]). destruct He.
Qed.

(** ** The two paths *)

Lemma append_inv_head (a x y : string) : (a ++ x)%string = (a ++ y)%string -> x = y.
Proof. induction a as [|c a IH]; cbn; [done|]. intros [= H]. by apply IH. Qed.

Lemma song_and_log_paths_differ (input_data : string) :
  os_path_join input_data "song_data/*/*/*/*.json" <>
  os_path_join input_data "log_data/*/*/*/*.json".
Proof.
  unfold os_path_join. cbn [String.prefix].
  destruct (bool_decide (input_data = "") || ends_with_sep input_data);
    intros H%append_inv_head; discriminate.
Qed.

(** X17. The song path and the log path differ for every input location,
    and whatever frame is put under the song path, the log pipeline reads
    the same log data, derives the same songplays and ends the same way. *)
Theorem log_pipeline_ignores_song_path
    (utcoffset : Z -> Z) (spark : SparkSession) (input_data output_data : string)
    (st : state) (songs : DataFrame) :
  let spark' :=
    mkSession (<[os_path_join input_data "song_data/*/*/*/*.json" := songs]> (files spark)) in
  os_path_join input_data "song_data/*/*/*/*.json" <>
    os_path_join input_data "log_data/*/*/*/*.json" /\
  run_songplays utcoffset spark' input_data = run_songplays utcoffset spark input_data /\
  fst (process_log_data utcoffset spark' input_data output_data st) =
  fst (process_log_data utcoffset spark input_data output_data st).
Proof.
  cbv zeta. pose proof (song_and_log_paths_differ input_data) as Hne.
  split; [exact Hne|].
  assert (Hr : read_json
                 (mkSession (<[os_path_join input_data "song_data/*/*/*/*.json" := songs]>
                               (files spark)))
                 (os_path_join input_data "log_data/*/*/*/*.json") =
               read_json spark (os_path_join input_data "log_data/*/*/*/*.json")).
  { unfold read_json. cbn [files]. by rewrite lookup_insert_ne. }
  split; [unfold run_songplays; by rewrite Hr|].
  apply process_log_data_run. intros st1 _ _.
  apply (process_log_data_run utcoffset spark). intros st2 _ _.
  cbn [fst]. by rewrite Hr.
Qed.

(** ** Song data with repeated records *)

Lemma NoDup_coarser {A B C} (f : A -> B) (g : A -> C) (l : list A) :
  (forall x y, x ∈ l -> y ∈ l -> g x = g y -> f x = f y) ->
  NoDup (map f l) -> NoDup (map g l).
Proof.
  induction l as [|a l IH]; intros Hfg Hn; cbn [map] in *; [constructor|].
  apply NoDup_cons in Hn as [Ha Hn]. apply NoDup_cons. split.
  - intros (x & Hx & Hin)%list_elem_of_fmap. apply Ha.
    apply list_elem_of_fmap. exists x. split; [|exact Hin].
    apply Hfg; [left|by right|exact Hx].
  - apply IH; [|exact Hn]. intros x y Hx Hy. apply Hfg; by right.
Qed.

(** X18. When the song records that share a [song_id] agree on title,
    artist id, year and duration, the songs table has one row for every
    song id of the song data, and no id twice. *)
Theorem songs_table_keys_when_consistent (df t : DataFrame) :
  songs_table df = Ok t ->
  (forall r1 r2, r1 ∈ rows df -> r2 ∈ rows df ->
                 cell "song_id" r1 = cell "song_id" r2 ->
                 key_of song_columns r1 = key_of song_columns r2) ->
  NoDup (column "song_id" t) /\
  (forall v, (v ∈ column "song_id" t) <-> (v ∈ column "song_id" df)).
Proof.
  intros H Hcons. destruct (songs_table_keys_spec df t H) as [Hn Hk].
  assert (Hid : forall r, nth 0 (key_of song_columns r) VNull = cell "song_id" r)
    by reflexivity.
  assert (Hfrom : forall a, a ∈ rows t ->
            exists r, r ∈ rows df /\ key_of song_columns a = key_of song_columns r).
  { intros a Ha.
    pose proof (proj1 (Hk (key_of song_columns a))
                  (list_elem_of_fmap_2 (key_of song_columns) _ _ Ha)) as Hin.
    apply list_elem_of_fmap in Hin as (r & Hr & Hin). eauto. }
  split.
  - unfold column. apply (NoDup_coarser (key_of song_columns)); [|exact Hn].
    intros a b Ha Hb Hab.
    destruct (Hfrom a Ha) as (ra & Hra & Hka). destruct (Hfrom b Hb) as (rb & Hrb & Hkb).
    rewrite Hka, Hkb. apply Hcons; [exact Hra|exact Hrb|].
    rewrite <- !Hid, <- Hka, <- Hkb, !Hid. exact Hab.
  - intros v. unfold column. split.
    + intros (a & -> & Ha)%list_elem_of_fmap.
      destruct (Hfrom a Ha) as (ra & Hra & Hka).
      apply list_elem_of_fmap. exists ra. split; [|exact Hra].
      by rewrite <- !Hid, Hka.
    + intros (r & -> & Hr)%list_elem_of_fmap.
      pose proof (proj2 (Hk (key_of song_columns r))
                    (list_elem_of_fmap_2 (key_of song_columns) _ _ Hr)) as Hin.
      apply list_elem_of_fmap in Hin as (a & Hka & Ha).
      apply list_elem_of_fmap. exists a. split; [|exact Ha].
      by rewrite <- !Hid, Hka.
Qed.

Lemma songs_table_keys_witness :
  NoDup (column "song_id" sample_repeated_songs) /\
  (forall v, (v ∈ column "song_id" sample_repeated_songs)
             <-> (v ∈ column "song_id" repeated_song_frame)).
Proof.
  apply (songs_table_keys_when_consistent repeated_song_frame sample_repeated_songs).
  - vm_compute. reflexivity.
  - intros r1 r2 H1 H2 _.
    change (rows repeated_song_frame) with [song_a; song_a] in H1, H2.
    rewrite !elem_of_cons, elem_of_nil in H1, H2.
    destruct H1 as [->|[->|[]]], H2 as [->|[->|[]]]; reflexivity.
Defined.

(** ** C6 *)

Lemma rows_of_columns (L : list (string * string)) (l1 l2 : list Row) :
  length l1 = length l2 ->
  (forall src new, (src, new) ∈ L -> map (cell new) l2 = map (cell src) l1) ->
  Forall2 (fun r row => forall src new, (src, new) ∈ L -> cell new row = cell src r) l1 l2.
Proof.
  revert l2. induction l1 as [|r l1 IH]; intros [|row l2] Hlen Hcols; try discriminate.
  - constructor.
  - constructor.
    + intros src new Hin. specialize (Hcols src new Hin). cbn [map] in Hcols. congruence.
    + apply IH; [by injection Hlen|].
      intros src new Hin. specialize (Hcols src new Hin). cbn [map] in Hcols. congruence.
Qed.

(** The songplays rows and the [NextSong] records, side by side. *)
Lemma songplays_rows_in_scan_order (utcoffset : Z -> Z) (raw t : DataFrame) :
  derive_songplays utcoffset raw = Ok t ->
  Forall2 (fun r row => forall src new, (src, new) ∈ copied_columns ->
                                        cell new row = cell src r)
    (next_songs raw) (rows t).
Proof.
  intros H. apply derive_songplays_table in H as (t0 & -> & Hp0 & _).
  assert (Hcols : forall src new, (src, new) ∈ copied_columns ->
            column new (withColumn_id "songplay_id" t0) = map (cell src) (next_songs raw)).
  { intros src new Hin.
    assert (Hnew : "songplay_id" <> new).
    { unfold copied_columns in Hin. rewrite !elem_of_cons, elem_of_nil in Hin.
      repeat (destruct Hin as [[= -> ->]|Hin]; [discriminate|]). destruct Hin. }
    rewrite column_withColumn_id_other by exact Hnew.
    unfold column, rows. rewrite Hp0. unfold next_songs.
    rewrite <- concat_map, map_map. apply map_ext. intros r.
    rewrite cell_project. unfold timed.
    unfold copied_columns in Hin. rewrite !elem_of_cons, elem_of_nil in Hin.
    repeat (destruct Hin as [[= -> ->]|Hin];
            [cbn [songplays_exprs List.find alias e_alias String.eqb Ascii.eqb Bool.eqb];
             unfold eval; cbn [e_col e_fn col alias date_fn];
             by rewrite !cell_insert_ne by done|]).
    destruct Hin. }
  apply rows_of_columns; [|exact Hcols].
  pose proof (Hcols "ts" "ts") as Hts. unfold column in Hts.
  rewrite <- (length_map (cell "ts") (next_songs raw)), <- Hts by (unfold copied_columns; left).
  by rewrite length_map.
Qed.

(** C6 (amended).  In the songplays frame derived from a log frame of at
    most 2^30 partitions, none of more than 2^33 rows, the i-th row carries
    the copied cells of the i-th [NextSong] record in scan order, and the
    [songplay_id] cells are integers that increase strictly along that
    order; in particular no two rows share an id. *)
Theorem songplay_ids_increasing (utcoffset : Z -> Z) (raw t : DataFrame) :
  derive_songplays utcoffset raw = Ok t ->
  Z.of_nat (length (partitions raw)) <= 2 ^ 30 ->
  Forall (fun part => Z.of_nat (length part) <= 2 ^ 33) (partitions raw) ->
  Forall2 (fun r row => forall src new, (src, new) ∈ copied_columns ->
                                        cell new row = cell src r)
    (next_songs raw) (rows t) /\
  exists ids,
    column "songplay_id" t = map VInt ids /\ StronglySorted Z.lt ids /\ NoDup ids.
Proof.
  intros H Hparts Hrows. split; [by apply (songplays_rows_in_scan_order utcoffset)|].
  unfold derive_songplays in H.
  apply bind_ok in H as (df & Hf & H). apply bind_ok in H as (df2 & Hw & H).
  unfold with_times in Hw. apply bind_ok in Hw as (df1 & Hw1 & Hw2).
  unfold songplays_table, sql_select in H. apply bind_ok in H as (t0 & Hsel & H).
  injection H as <-.
  exists (frame_ids 0 (map length (partitions t0))).
  split; [apply column_withColumn_id|].
  assert (Hsz : map length (partitions t0) = map length (partitions df)).
  { rewrite (select_sizes _ _ _ _ Hsel), (withColumn_udf_sizes _ _ _ _ _ Hw2).
    apply (withColumn_udf_sizes _ _ _ _ _ Hw1). }
  pose proof (filter_next_song_sizes _ _ Hf) as Hle. rewrite <- Hsz in Hle.
  destruct (frame_ids_sorted (map length (partitions t0)) 0) as [Hs _].
  - apply Forall2_length in Hle. rewrite Hle. lia.
  - clear -Hle Hrows. induction Hle as [|n part ns ps Hn _ IH]; [constructor|].
    apply Forall_cons in Hrows as [Hp Hrows]. constructor; [lia|auto].
  - split; [exact Hs|]. apply StronglySorted_lt_NoDup, Hs.
Qed.

Lemma songplay_ids_witness :
  Forall2 (fun r row => forall src new, (src, new) ∈ copied_columns ->
                                        cell new row = cell src r)
    (next_songs tagged_log_frame) (rows sample_songplays) /\
  exists ids,
    column "songplay_id" sample_songplays = map VInt ids /\
    StronglySorted Z.lt ids /\ NoDup ids.
Proof.
  apply (songplay_ids_increasing utc tagged_log_frame sample_songplays).
  - vm_compute. reflexivity.
  - vm_compute. discriminate.
  - repeat constructor; vm_compute; discriminate.
Defined.

(** A partition of more than 2^33 rows runs into the ids of the next
    one. *)
Lemma filter_replicate {A} (f : A -> bool) (n : nat) (x : A) :
  f x = true -> List.filter f (replicate n x) = replicate n x.
Proof. intros Hx. induction n as [|n IH]; cbn; [reflexivity|]. by rewrite Hx, IH. Qed.

Lemma crowded_frame_ids (n : nat) :
  exists t, derive_songplays utc (crowded_frame n) = Ok t /\
            column "songplay_id" t = map VInt (frame_ids 0 [n; 1%nat]).
Proof.
  unfold derive_songplays, crowded_frame.
  rewrite filter_next_song_ok by by_decide. cbn [mbind result_bind columns partitions map].
  rewrite filter_replicate by (vm_compute; reflexivity).
  replace (List.filter is_next_song [tagged play]) with [tagged play]
    by (vm_compute; reflexivity).
  assert (Hok : exists v, get_datetime utc (cell "ts" (tagged play)) = Ok v)
    by (eexists; vm_compute; reflexivity).
  assert (Hw : with_times utc
                 (mkFrame (columns tagged_log_frame)
                    [replicate n (tagged play); [tagged play]]) =
               Ok (mkFrame
                     (add_column "datetime"
                        (add_column "timestamp" (columns tagged_log_frame)))
                     (map (map (timed utc)) [replicate n (tagged play); [tagged play]]))).
  { apply with_times_spec. split; [by_decide|]. split; [|reflexivity].
    cbn [partitions]. repeat constructor; [|exact Hok].
    apply Forall_forall. intros r [-> _]%elem_of_replicate. exact Hok. }
  rewrite Hw. cbn [mbind result_bind]. unfold songplays_table, sql_select.
  rewrite select_ok.
  - cbn [mbind result_bind]. eexists. split; [reflexivity|].
    rewrite column_withColumn_id. cbn [partitions map].
    by rewrite !length_map, length_replicate.
  - intros e He. cbn [columns].
    rewrite !elem_of_cons, elem_of_nil in He.
    repeat (destruct He as [->|He]; [by_decide|]). destruct He.
Qed.

(** C6 (the claim fails).  With 2^33 + 1 records in the first partition
    and one in the second, two songplays rows get the id 2^33. *)
Lemma songplay_ids_collide :
  exists t, derive_songplays utc (crowded_frame (Z.to_nat (2 ^ 33 + 1))) = Ok t /\
            ~ NoDup (column "songplay_id" t).
Proof.
  destruct (crowded_frame_ids (Z.to_nat (2 ^ 33 + 1))) as (t & Ht & Hids).
  exists t. split; [exact Ht|]. rewrite Hids. cbn [frame_ids seq map].
  intros Hn. apply (NoDup_fmap_1 VInt) in Hn.
  apply NoDup_app in Hn as (_ & Hdisj & _).
  apply (Hdisj (2 ^ 33)).
  - apply list_elem_of_fmap. exists (Z.to_nat (2 ^ 33)). split.
    + unfold monotonic_id, wrap64. rewrite Z2Nat.id by lia. reflexivity.
    + apply list_elem_of_In, in_seq. split; [apply Nat.le_0_l|].
      cbn [Nat.add]. apply Z2Nat.inj_lt; lia.
  - left.
Qed.
